(** * AGBAC-Min: dual-subject identity propagation, verified model

    Shallow embedding of the AGBAC-Min Python sources:
    - [code/python/hybrid_sender.py]          (HybridSender)
    - [code/out_of_session_token_request.py]  (OutOfSessionTokenRequest)
    - [code/in_session_token_request.py]      (InSessionTokenRequest)
    - [code/python/base_adapter.py]           (BaseAdapter.__init__)
    - [agents/python/adapters/*.py]           (Auth0, Okta, EntraID adapters)

    The third-party libraries the sources call (PyJWT's [jwt.encode] /
    [jwt.decode], [requests.post] / [raise_for_status] / [json]) are modelled
    by their documented behaviour; the JSON/base64 wire encoding of a
    compact JWT is taken to round-trip exactly, so a token is represented
    by its parsed header algorithm, payload and signature. *)

From Stdlib Require Import ZArith String Ascii Lia.
From stdpp Require Import base gmap strings list.

Open Scope Z_scope.
Open Scope string_scope.

(* ------------------------------------------------------------------ *)
(** ** Python values *)

(** The values found in session dicts, configuration dicts and act
    claims: [None], booleans, integers and strings. *)
Inductive PyVal :=
| PNone
| PBool (b : bool)
| PInt (z : Z)
| PStr (s : string).

#[global] Instance PyVal_eq_dec : EqDecision PyVal.
Proof. solve_decision. Defined.

(** Python truthiness ([bool(v)]). *)
Definition truthy (v : PyVal) : bool :=
  match v with
  | PNone => false
  | PBool b => b
  | PInt z => negb (Z.eqb z 0)
  | PStr s => negb (String.eqb s "")
  end.

(** [a or b]: the first operand if truthy, else the second. *)
Definition py_or (a b : PyVal) : PyVal := if truthy a then a else b.

(** [d.get(k)]. *)
Definition dict_get (d : gmap string PyVal) (k : string) : PyVal :=
  default PNone (d !! k).

(** [str.startswith("https://")]. *)
Definition is_https (s : string) : bool := String.prefix "https://" s.

(* ------------------------------------------------------------------ *)
(** ** PyJWT model *)

(** Decoded JWT payload (the claims the sources read or write).  An
    [act] that is a JSON object is a dict; absent or [null] is [None]. *)
Record Payload := {
  pl_iss : option string;
  pl_sub : option string;
  pl_aud : option string;
  pl_exp : option Z;
  pl_iat : option Z;
  pl_jti : option string;
  pl_act : option (gmap string PyVal)
}.

#[global] Instance Payload_eq_dec : EqDecision Payload.
Proof. solve_decision. Defined.

(** A compact JWS as PyJWT parses it: [Malformed] (cannot be split or
    base64/JSON-decoded), or a header algorithm, a payload and a
    signature.  A signature [Some (k, alg, pl)] is one produced by the
    private key numbered [k] over header algorithm [alg] and payload
    [pl]; [None] is an empty signature (e.g. [alg = "none"]).  The public
    key numbered [k] verifies exactly the signatures of private key [k]. *)
Inductive Token :=
| Malformed
| Jws (alg : string) (pl : Payload) (sig : option (N * string * Payload)).

(** PyJWT exception classes raised by [jwt.decode]. *)
Inductive JwtError :=
| DecodeError
| InvalidAlgorithmError
| InvalidSignatureError
| ImmatureSignatureError
| ExpiredSignatureError
| MissingRequiredClaimError
| InvalidAudienceError.

(** [jwt.encode(payload, key, algorithm=alg)]. *)
Definition jwt_encode (payload : Payload) (key : N) (alg : string) : Token :=
  Jws alg payload (Some (key, alg, payload)).

(** [jwt.decode(tok, pub, algorithms=algorithms, audience=audience,
    options={'verify_exp': True})] at time [now] (PyJWT 2.x, leeway 0):
    algorithm allow-list, signature, then the registered claims in the
    order [iat], [exp], [aud]. *)
Definition jwt_decode (pub : N) (algorithms : list string) (now : Z)
    (audience : string) (tok : Token) : JwtError + Payload :=
  match tok with
  | Malformed => inl DecodeError
  | Jws alg pl sig =>
      if negb (existsb (String.eqb alg) algorithms) then inl InvalidAlgorithmError
      else if negb (bool_decide (sig = Some (pub, alg, pl))) then inl InvalidSignatureError
      else if (match pl_iat pl with Some iat => Z.ltb now iat | None => false end)
      then inl ImmatureSignatureError
      else if (match pl_exp pl with Some exp => Z.leb exp now | None => false end)
      then inl ExpiredSignatureError
      else match pl_aud pl with
           | None => inl MissingRequiredClaimError
           | Some a =>
               if String.eqb a "" then inl MissingRequiredClaimError
               else if String.eqb a audience then inr pl
               else inl InvalidAudienceError
           end
  end.

(* ------------------------------------------------------------------ *)
(** ** HybridSender ([code/python/hybrid_sender.py]) *)

(** The sender; [_private_key] is the loaded RSA private key (by number),
    [None] when constructed without [private_key_pem]. *)
Record HybridSender := { _private_key : option N }.

(** The [ValueError]s raised by [prepare_out_of_session_act]. *)
Inductive SendError :=
| SigningKeyMissing        (* "HybridSender not configured for out-of-session" *)
| InvalidClaim             (* "Act must contain 'sub' field" *)
| InvalidAssertionRequest. (* "Agent endpoint must use HTTPS" *)

(** [prepare_out_of_session_act(act, agent_endpoint, ttl_seconds)];
    [now] is [int(time.time())] and [jti] is [secrets.token_urlsafe(32)]. *)
Definition prepare_out_of_session_act (self : HybridSender)
    (act : gmap string PyVal) (agent_endpoint : string) (ttl_seconds : Z)
    (now : Z) (jti : string) : SendError + Token :=
  match _private_key self with
  | None => inl SigningKeyMissing
  | Some key =>
      if bool_decide (act = ∅) || negb (bool_decide (is_Some (act !! "sub")))
      then inl InvalidClaim
      else if String.eqb agent_endpoint "" || negb (is_https agent_endpoint)
      then inl InvalidAssertionRequest
      else
        let payload := {|
          pl_iss := Some "application";
          pl_sub := Some "application";
          pl_aud := Some agent_endpoint;
          pl_exp := Some (now + ttl_seconds);
          pl_iat := Some now;
          pl_jti := Some jti;
          pl_act := Some act |} in
        inr (jwt_encode payload key "RS256")
  end.

(* ------------------------------------------------------------------ *)
(** ** OutOfSessionTokenRequest ([code/out_of_session_token_request.py]) *)

(** The verifier: the application's public key and [_used_jtis]. *)
Record OutOfSessionTokenRequest := {
  _app_public_key : N;
  _used_jtis : gset string
}.

(** The [ValueError]s raised by [receive_and_verify_act_jwt]. *)
Inductive VerifyError :=
| Expired                       (* "Act JWT expired" *)
| AudienceMismatch              (* "Act JWT invalid audience" *)
| SignatureInvalid              (* "Act JWT signature invalid" *)
| InvalidToken (e : JwtError)   (* "Act JWT invalid: {e}" *)
| ReplayDetected                (* "Act JWT replay detected" *)
| MalformedClaim.               (* "Act JWT must contain act.sub" *)

(** The [except] clauses, in source order; [InvalidTokenError] is the
    base class of every PyJWT error. *)
Definition handle_jwt_error (e : JwtError) : VerifyError :=
  match e with
  | ExpiredSignatureError => Expired
  | InvalidAudienceError => AudienceMismatch
  | InvalidSignatureError => SignatureInvalid
  | e => InvalidToken e
  end.

Definition set_used_jtis (self : OutOfSessionTokenRequest) (s : gset string)
    : OutOfSessionTokenRequest :=
  {| _app_public_key := _app_public_key self; _used_jtis := s |}.

(** [if not act or 'sub' not in act]. *)
Definition act_invalid (act : option (gmap string PyVal)) : bool :=
  match act with
  | None => true
  | Some a => bool_decide (a = ∅) || negb (bool_decide (is_Some (a !! "sub")))
  end.

(** [receive_and_verify_act_jwt(act_jwt, expected_audience)] at time
    [now]; returns the outcome and the handler after the call (the jti is
    added to [_used_jtis] before the act claim is checked). *)
Definition receive_and_verify_act_jwt (self : OutOfSessionTokenRequest)
    (act_jwt : Token) (expected_audience : string) (now : Z)
    : (VerifyError + gmap string PyVal) * OutOfSessionTokenRequest :=
  match jwt_decode (_app_public_key self) ["RS256"] now expected_audience act_jwt with
  | inl e => (inl (handle_jwt_error e), self)
  | inr decoded =>
      let self' :=
        match pl_jti decoded with
        | Some jti =>
            if String.eqb jti "" then inr self
            else if bool_decide (jti ∈ _used_jtis self) then inl ReplayDetected
            else inr (set_used_jtis self ({[jti]} ∪ _used_jtis self))
        | None => inr self
        end in
      match self' with
      | inl e => (inl e, self)
      | inr self' =>
          if act_invalid (pl_act decoded) then (inl MalformedClaim, self')
          else match pl_act decoded with
               | Some act => (inr act, self')
               | None => (inl MalformedClaim, self')
               end
      end
  end.

(** Sample data. *)
Definition alice : gmap string PyVal := <["sub" := PStr "alice"]> ∅.
Definition agent_url : string := "https://agent.example.com".
Definition app_sender : HybridSender := {| _private_key := Some 7%N |}.
Definition app_verifier : OutOfSessionTokenRequest :=
  {| _app_public_key := 7%N; _used_jtis := ∅ |}.

(** The assertion [prepare_out_of_session_act app_sender alice agent_url
    60 1000 "n1"] produces. *)
Definition sample_payload : Payload := {|
  pl_iss := Some "application"; pl_sub := Some "application";
  pl_aud := Some agent_url; pl_exp := Some 1060; pl_iat := Some 1000;
  pl_jti := Some "n1"; pl_act := Some alice |}.
Definition sample_token : Token := jwt_encode sample_payload 7%N "RS256".

(** A sequence of verification calls on one handler, each with its
    expected audience and time; collects every call's outcome. *)
Fixpoint run_calls (self : OutOfSessionTokenRequest)
    (calls : list (Token * string * Z))
    : list (Token * (VerifyError + gmap string PyVal)) :=
  match calls with
  | [] => []
  | (tok, aud, now) :: rest =>
      let '(r, self') := receive_and_verify_act_jwt self tok aud now in
      (tok, r) :: run_calls self' rest
  end.

(** The handler after a sequence of verification calls. *)
Fixpoint run_calls_state (self : OutOfSessionTokenRequest)
    (calls : list (Token * string * Z)) : OutOfSessionTokenRequest :=
  match calls with
  | [] => self
  | (tok, aud, now) :: rest =>
      run_calls_state (snd (receive_and_verify_act_jwt self tok aud now)) rest
  end.

(** The jti a token's payload carries. *)
Definition tok_jti (tok : Token) : option string :=
  match tok with
  | Malformed => None
  | Jws _ pl _ => pl_jti pl
  end.

(** Number of successful calls on tokens carrying jti [j]. *)
Fixpoint count_success (j : string)
    (l : list (Token * (VerifyError + gmap string PyVal))) : nat :=
  match l with
  | [] => 0
  | (tok, inr _) :: rest =>
      (if bool_decide (tok_jti tok = Some j) then 1 else 0) + count_success j rest
  | (_, inl _) :: rest => count_success j rest
  end.

(** The outcome of a call on a token whose signature does not verify
    under the handler's key: malformed tokens and tokens whose header
    algorithm is not RS256 are rejected before the signature check. *)
Definition rejection_for_unverified (tok : Token) : VerifyError :=
  match tok with
  | Malformed => InvalidToken DecodeError
  | Jws alg _ _ =>
      if String.eqb alg "RS256" then SignatureInvalid
      else InvalidToken InvalidAlgorithmError
  end.

(** The signature of [tok] verifies under public key [pub] with the
    pinned algorithm RS256. *)
Definition signature_verifies (pub : N) (tok : Token) : bool :=
  match tok with
  | Malformed => false
  | Jws alg pl sig => String.eqb alg "RS256" && bool_decide (sig = Some (pub, alg, pl))
  end.

(** An RS256 token signed by the application whose payload has no act. *)
Definition no_act_payload : Payload := {|
  pl_iss := Some "application"; pl_sub := Some "application";
  pl_aud := Some agent_url; pl_exp := Some 1060; pl_iat := Some 1000;
  pl_jti := Some "n2"; pl_act := None |}.

(* ------------------------------------------------------------------ *)
(** ** Python exceptions on the adapter and session paths *)

(** The token request body each adapter posts. *)
Record TokenRequestBody := {
  grant_type : string;
  rb_client_id : string;
  rb_client_secret : string;
  rb_audience : option string;
  rb_scope : string;
  rb_sub : string;
  rb_act : gmap string PyVal;
  rb_form_encoded : bool      (* [data=] (EntraID) rather than [json=] *)
}.

(** A provider's HTTP response ([requests.Response]): status code,
    reason phrase, body text, and the body parsed by [.json()] ([None]
    when it is not valid JSON). *)
Record HttpResponse := {
  resp_status : Z;
  resp_reason : string;
  resp_text : string;
  resp_json : option (gmap string PyVal)
}.

(** The exceptions, with what they carry.  The [requests] exceptions
    keep the request sent ([.request]: its URL and the posted body); the
    [HTTPError] of [raise_for_status()] also keeps the response
    ([.response]); the [JSONDecodeError] of [.json()] keeps the text it
    failed on ([.doc]).  A [TokenRequestError] raised inside an
    [except] block has the exception being handled as its
    [__context__]. *)
Inductive PyExc :=
| ValueError (msg : string)
| AttributeError
| ConfigurationError (msg : string)        (* agbac_config.ConfigurationError *)
| HTTPError (response : HttpResponse) (request_url : string) (request : TokenRequestBody)
| RequestsConnectionError (request_url : string) (request : TokenRequestBody)
                                           (* requests.ConnectionError *)
| JSONDecodeError (doc : string)           (* requests.JSONDecodeError *)
| TokenRequestError (msg : string) (status_code : option Z) (context : option PyExc).

(** [e.__class__.__name__]. *)
Definition exc_class_name (e : PyExc) : string :=
  match e with
  | ValueError _ => "ValueError"
  | AttributeError => "AttributeError"
  | ConfigurationError _ => "ConfigurationError"
  | HTTPError _ _ _ => "HTTPError"
  | RequestsConnectionError _ _ => "ConnectionError"
  | JSONDecodeError _ => "JSONDecodeError"
  | TokenRequestError _ _ _ => "TokenRequestError"
  end.

(** Whether [_sanitize_identifier(identifier)] returns or raises: a falsy
    value gives ["unknown"]; otherwise [identifier.encode('utf-8')] is
    called, which only strings have.  (The hash itself is only logged.) *)
Definition sanitize_identifier (identifier : PyVal) : PyExc + unit :=
  if negb (truthy identifier) then inr tt
  else match identifier with
       | PStr _ => inr tt
       | _ => inl AttributeError
       end.

(* ------------------------------------------------------------------ *)
(** ** [HybridSender.extract_act_from_session] *)

(** [session.get('email') or session.get('user_email') or
     session.get('userPrincipalName') or session.get('mail')]. *)
Definition session_email (session : gmap string PyVal) : PyVal :=
  py_or (py_or (py_or (dict_get session "email") (dict_get session "user_email"))
               (dict_get session "userPrincipalName"))
        (dict_get session "mail").

Definition extract_act_from_session (session : gmap string PyVal)
    : PyExc + gmap string PyVal :=
  if bool_decide (session = ∅) then inl (ValueError "Session must be a dictionary")
  else
    let email := session_email session in
    if negb (truthy email) then inl (ValueError "Session must contain email")
    else
      let sub := py_or (py_or (py_or (dict_get session "sub") (dict_get session "user_id"))
                              (dict_get session "oid"))
                       email in
      let name := py_or (py_or (dict_get session "name") (dict_get session "display_name"))
                        (dict_get session "displayName") in
      let act0 := <["email" := email]> (<["sub" := sub]> ∅) in
      let act := if truthy name then <["name" := name]> act0 else act0 in
      match sanitize_identifier sub with
      | inl e => inl e
      | inr _ => inr act
      end.

Definition email_fields : list string := ["email"; "user_email"; "userPrincipalName"; "mail"].
Definition subject_fields : list string := ["sub"; "user_id"; "oid"].

(* ------------------------------------------------------------------ *)
(** ** [BaseAdapter.__init__] ([code/python/base_adapter.py]) *)

Record BaseAdapter := {
  ba_config : gmap string PyVal;
  ba_token_url : string;
  ba_client_id : PyVal;
  ba_client_secret : PyVal;
  ba_audience : PyVal
}.

Definition required_fields : list string := ["token_url"; "client_id"; "client_secret"].

Definition base_adapter_init (config : gmap string PyVal) : PyExc + BaseAdapter :=
  let missing_fields := filter (fun f => config !! f = None) required_fields in
  match missing_fields with
  | _ :: _ =>
      inl (ValueError ("Missing required configuration: " ++ String.concat ", " missing_fields))
  | [] =>
      match dict_get config "token_url" with
      | PStr token_url =>
          if negb (is_https token_url)
          then inl (ValueError "Token URL must use HTTPS (https://)")
          else
            let client_id := dict_get config "client_id" in
            match sanitize_identifier client_id with
            | inl e => inl e
            | inr _ =>
                inr {| ba_config := config; ba_token_url := token_url;
                       ba_client_id := client_id;
                       ba_client_secret := dict_get config "client_secret";
                       ba_audience := dict_get config "audience" |}
            end
      | _ => inl AttributeError   (* [.startswith] on a non-string *)
      end
  end.

(* ------------------------------------------------------------------ *)
(** ** Vendor adapters ([agents/python/adapters/*.py]) *)

Inductive Vendor := Auth0 | Okta | EntraID.

(** The adapters' attributes as their [__init__]s store them, without
    validation. *)
Record VendorAdapter := {
  vendor : Vendor;
  token_url : string;
  client_id : string;
  client_secret : string
}.

(** [Auth0Adapter(domain, client_id, client_secret)]. *)
Definition Auth0Adapter_init (domain client_id client_secret : string) : VendorAdapter :=
  {| vendor := Auth0; token_url := "https://" ++ domain ++ "/oauth/token";
     client_id := client_id; client_secret := client_secret |}.

(** [OktaAdapter(token_url, client_id, client_secret)]. *)
Definition OktaAdapter_init (token_url client_id client_secret : string) : VendorAdapter :=
  {| vendor := Okta; token_url := token_url;
     client_id := client_id; client_secret := client_secret |}.

(** [EntraIDAdapter(token_url, client_id, client_secret, tenant_id)]; the
    tenant id is stored and never read. *)
Definition EntraIDAdapter_init (token_url client_id client_secret tenant_id : string)
    : VendorAdapter :=
  {| vendor := EntraID; token_url := token_url;
     client_id := client_id; client_secret := client_secret |}.

Definition request_body (self : VendorAdapter) (sub : string)
    (act : gmap string PyVal) (scope : list string) : TokenRequestBody :=
  {| grant_type := "client_credentials";
     rb_client_id := client_id self;
     rb_client_secret := client_secret self;
     rb_audience := match vendor self with
                    | Auth0 => Some "https://api.example.com/"
                    | _ => None
                    end;
     rb_scope := String.concat " " scope;
     rb_sub := sub; rb_act := act;
     rb_form_encoded := match vendor self with EntraID => true | _ => false end |}.

(** What [requests.post] yields: a network failure or a response. *)
Inductive HttpOutcome :=
| NetworkFailure
| Response (response : HttpResponse).

(** [request_token(sub, act, scope)] of the three adapters: post,
    [raise_for_status()] (raises for 400 <= status < 600), [json()];
    every exception is logged and re-raised unchanged. *)
Definition vendor_request_token (post : string -> TokenRequestBody -> HttpOutcome)
    (self : VendorAdapter) (sub : string) (act : gmap string PyVal) (scope : list string)
    : PyExc + gmap string PyVal :=
  let payload := request_body self sub act scope in
  match post (token_url self) payload with
  | NetworkFailure => inl (RequestsConnectionError (token_url self) payload)
  | Response response =>
      if Z.leb 400 (resp_status response) && Z.ltb (resp_status response) 600
      then inl (HTTPError response (token_url self) payload)
      else match resp_json response with
           | None => inl (JSONDecodeError (resp_text response))
           | Some token_data => inr token_data
           end
  end.

(* ------------------------------------------------------------------ *)
(** ** [InSessionTokenRequest.request_token] ([code/in_session_token_request.py]) *)

(** [adapter_request_token] is the adapter's [request_token]; [has_attrs r]
    says whether [r] has the attributes [expires_in] and [act_assertion]
    read in the success log (a [TokenResponse] has them, a dict has
    not: reading them raises [AttributeError]). *)
Definition in_session_request_token {R : Type}
    (adapter_request_token : string -> gmap string PyVal -> list string -> PyExc + R)
    (has_attrs : R -> bool)
    (agent_id : string) (act : gmap string PyVal) (scope : list string) : PyExc + R :=
  if String.eqb agent_id "" || bool_decide (act = ∅)
     || negb (bool_decide (is_Some (act !! "sub"))) || bool_decide (scope = [])
  then inl (ValueError "Invalid inputs: agent_id, act.sub, and scope required")
  else
    let wrap (e : PyExc) :=
      match e with
      | TokenRequestError m s c => TokenRequestError m s c
      | e => TokenRequestError ("Unexpected error: " ++ exc_class_name e) None (Some e)
      end in
    match adapter_request_token agent_id act scope with
    | inl e => inl (wrap e)
    | inr r => if has_attrs r then inr r else inl (wrap AttributeError)
    end.

(** Sample adapter configuration and provider. *)
Definition good_config : gmap string PyVal :=
  <["token_url" := PStr "https://idp.example.com/token"]>
  (<["client_id" := PStr "agent-1"]> (<["client_secret" := PStr "s3cret"]> ∅)).

(** The provider answering every request with HTTP 500. *)
Definition post_500 (_ : string) (_ : TokenRequestBody) : HttpOutcome :=
  Response {| resp_status := 500; resp_reason := "Internal Server Error";
              resp_text := "upstream error: invalid_client"; resp_json := None |}.

Definition auth0_adapter : VendorAdapter :=
  Auth0Adapter_init "tenant.auth0.com" "agent-1" "s3cret".

(* ------------------------------------------------------------------ *)
(** ** Python [str] operations used below *)

(** Strings are ASCII text; a character is one [ascii]. *)

(** [c in s] for a one-character string [c]. *)
Fixpoint str_contains_char (c : ascii) (s : string) : bool :=
  match s with
  | EmptyString => false
  | String c' r => Ascii.eqb c c' || str_contains_char c r
  end.

(** The decimal digits of [n], prepended to [acc]; [fuel] bounds the
    number of digits. *)
Fixpoint N_digits (fuel : nat) (n : N) (acc : string) : string :=
  match fuel with
  | O => acc
  | S f =>
      let acc' := String (Ascii.ascii_of_N (48 + N.modulo n 10)) acc in
      if N.ltb n 10 then acc' else N_digits f (N.div n 10) acc'
  end.

(** [str(z)] for an [int]. *)
Definition py_str_int (z : Z) : string :=
  let n := Z.to_N (Z.abs z) in
  let digits := N_digits (S (N.size_nat n)) n "" in
  if Z.ltb z 0 then "-" ++ digits else digits.

(** [str.isspace()] on an ASCII character: [\t \n \v \f \r], the
    separators [\x1c]-[\x1f] and the space. *)
Definition py_isspace (c : ascii) : bool :=
  let n := nat_of_ascii c in
  (Nat.leb 9 n && Nat.leb n 13) || (Nat.leb 28 n && Nat.leb n 32).

Fixpoint lstrip (s : string) : string :=
  match s with
  | EmptyString => EmptyString
  | String c r => if py_isspace c then lstrip r else s
  end.

Fixpoint rstrip (s : string) : string :=
  match s with
  | EmptyString => EmptyString
  | String c r =>
      let r' := rstrip r in
      if py_isspace c && String.eqb r' "" then EmptyString else String c r'
  end.

(** [s.strip()]. *)
Definition strip (s : string) : string := rstrip (lstrip s).

Definition lower_char (c : ascii) : ascii :=
  let n := nat_of_ascii c in
  if Nat.leb 65 n && Nat.leb n 90 then ascii_of_nat (n + 32) else c.

(** [s.lower()]. *)
Fixpoint lower (s : string) : string :=
  match s with
  | EmptyString => EmptyString
  | String c r => String (lower_char c) (lower r)
  end.

(* ------------------------------------------------------------------ *)
(** ** Log sanitisation ([code/python/base_adapter.py],
       [code/python/hybrid_sender.py]) *)

(** [d.get(k)] on a dict given by its entries in insertion order. *)
Fixpoint assoc_get (k : string) (d : list (string * PyVal)) : option PyVal :=
  match d with
  | [] => None
  | (k', v) :: rest => if String.eqb k k' then Some v else assoc_get k rest
  end.

Section Sanitize.

(** [hashlib.sha256(s.encode('utf-8')).hexdigest()]. *)
Variable sha256_hexdigest : string -> string.

(** [HybridSender._sanitize_identifier(identifier)] on a string. *)
Definition hs_sanitize_identifier (identifier : string) : string :=
  if String.eqb identifier "" then "unknown"
  else
    let hash_hex := substring 0 12 (sha256_hexdigest identifier) in
    let prefix := if str_contains_char "@"%char identifier then "user" else "id" in
    prefix ++ "_" ++ hash_hex.

(** [BaseAdapter._sanitize_identifier(identifier)] on a string. *)
Definition base_sanitize_identifier (identifier : string) : string :=
  if String.eqb identifier "" then "unknown"
  else
    let hash_hex := substring 0 12 (sha256_hexdigest identifier) in
    let prefix :=
      if str_contains_char "@"%char identifier then "user"
      else if String.prefix "0oa" identifier || String.prefix "a1b2" identifier
      then "app"
      else "id" in
    prefix ++ "_" ++ hash_hex.

(** [BaseAdapter._sanitize_identifier] on any value: a falsy value gives
    ["unknown"]; a truthy non-string has no [.encode]. *)
Definition base_sanitize_value (identifier : PyVal) : PyExc + string :=
  if negb (truthy identifier) then inr "unknown"
  else match identifier with
       | PStr s => inr (base_sanitize_identifier s)
       | _ => inl AttributeError
       end.

(** The dict [_sanitize_act] returns; [fields] is [list(act.keys())]. *)
Record SanitizedAct := {
  sub_hash : string;
  fields : list string;
  field_count : nat
}.

(** [BaseAdapter._sanitize_act(act)]; the act dict is its list of
    entries in insertion order, the order [act.keys()] lists them in. *)
Definition sanitize_act (act : list (string * PyVal)) : PyExc + SanitizedAct :=
  match base_sanitize_value (default (PStr "") (assoc_get "sub" act)) with
  | inl e => inl e
  | inr h => inr {| sub_hash := h; fields := map fst act; field_count := length act |}
  end.

End Sanitize.

(* ------------------------------------------------------------------ *)
(** ** The rest of [code/python/base_adapter.py] *)

(** [BaseAdapter._validate_act(act)]. *)
Definition validate_act (act : gmap string PyVal) : PyExc + unit :=
  if bool_decide (act = ∅) then inl (ValueError "Act claim cannot be empty")
  else match act !! "sub" with
       | None => inl (ValueError "Act claim must contain 'sub' field")
       | Some sub =>
           if negb (truthy sub) then inl (ValueError "Act claim 'sub' field cannot be empty")
           else inr tt
       end.

(** The [extra] of the record [_log_token_request_error] logs. *)
Record ErrorLogRecord := {
  error_type : string;
  error_message : string;
  lr_context : gmap string PyVal
}.

(** [BaseAdapter._log_token_request_error(error, context)]; [str_error]
    is [str(error)]. *)
Definition log_token_request_error (error : PyExc) (str_error : string)
    (context : gmap string PyVal) : ErrorLogRecord :=
  {| error_type := exc_class_name error;
     error_message := substring 0 100 str_error;
     lr_context := filter (fun kv => kv.1 ∉ ["client_secret"; "token"; "act"]) context |}.

(** [str(TokenRequestError(message, status_code))]. *)
Definition token_request_error_str (message : string) (status_code : option Z) : string :=
  match status_code with
  | Some s =>
      if negb (Z.eqb s 0)
      then "Token request failed (HTTP " ++ py_str_int s ++ "): " ++ message
      else "Token request failed: " ++ message
  | None => "Token request failed: " ++ message
  end.

(** The [TokenResponse] dataclass. *)
Record TokenResponse := {
  access_token : string;
  token_type : string;
  expires_in : Z;
  scope : string;
  act_assertion : option string
}.

(** [bool(x)] for an [Optional[str]]. *)
Definition opt_str_truthy (x : option string) : bool :=
  match x with Some s => negb (String.eqb s "") | None => false end.

(** [TokenResponse.__repr__()]. *)
Definition token_response_repr (self : TokenResponse) : string :=
  "TokenResponse(" ++
  "token_type=" ++ token_type self ++ ", " ++
  "expires_in=" ++ py_str_int (expires_in self) ++ ", " ++
  "scope=" ++ scope self ++ ", " ++
  "access_token=***REDACTED***, " ++
  "act_assertion=" ++ (if opt_str_truthy (act_assertion self) then "***REDACTED***" else "None")
  ++ ")".

(** [validate_adapter_config(config, required_fields)]. *)
Definition validate_adapter_config (config : gmap string PyVal)
    (required_fields : list string) : PyExc + unit :=
  let missing := filter (fun f => config !! f = None) required_fields in
  match missing with
  | [] => inr tt
  | _ :: _ =>
      inl (ValueError ("Missing required configuration fields: " ++ String.concat ", " missing))
  end.

(* ------------------------------------------------------------------ *)
(** ** Constructors that load keys *)

(** [HybridSender(private_key_pem)]; [load_private_key path] is
    [_load_private_key(path)]: the class name of the exception it raises,
    or the loaded key (an RSA key object, which is truthy). *)
Definition HybridSender_init (load_private_key : string -> string + N)
    (private_key_pem : option string) : PyExc + HybridSender :=
  if opt_str_truthy private_key_pem then
    match load_private_key (default "" private_key_pem) with
    | inl cls => inl (ValueError ("Cannot load private key: " ++ cls))
    | inr key => inr {| _private_key := Some key |}
    end
  else inr {| _private_key := None |}.

(** [OutOfSessionTokenRequest(adapter, app_public_key_path)]; the adapter
    is not part of the verifier state. *)
Definition OutOfSessionTokenRequest_init (load_app_public_key : string -> string + N)
    (app_public_key_path : string) : PyExc + OutOfSessionTokenRequest :=
  match load_app_public_key app_public_key_path with
  | inl cls => inl (ValueError ("Cannot load public key: " ++ cls))
  | inr key => inr {| _app_public_key := key; _used_jtis := ∅ |}
  end.

(* ------------------------------------------------------------------ *)
(** ** [OutOfSessionTokenRequest.request_token] *)

(** As [in_session_request_token]; [has_expires_in r] says whether [r]
    has the one attribute the success log reads. *)
Definition out_of_session_request_token {R : Type}
    (adapter_request_token : string -> gmap string PyVal -> list string -> PyExc + R)
    (has_expires_in : R -> bool)
    (agent_id : string) (act : gmap string PyVal) (scope : list string) : PyExc + R :=
  if String.eqb agent_id "" || bool_decide (act = ∅)
     || negb (bool_decide (is_Some (act !! "sub"))) || bool_decide (scope = [])
  then inl (ValueError "Invalid inputs")
  else
    let wrap (e : PyExc) :=
      match e with
      | TokenRequestError m s c => TokenRequestError m s c
      | e => TokenRequestError ("Unexpected error: " ++ exc_class_name e) None (Some e)
      end in
    match adapter_request_token agent_id act scope with
    | inl e => inl (wrap e)
    | inr r => if has_expires_in r then inr r else inl (wrap AttributeError)
    end.

(* ------------------------------------------------------------------ *)
(** ** [InSessionAPICall.call_api] ([code/in_session_api_call.py]) and
       [OutOfSessionAPICall.call_api] ([code/python/out_of_session_api_call.py]) *)

(** [_prepare_headers(token_response)] (identical in both classes). *)
Definition prepare_headers (token_response : TokenResponse) : gmap string string :=
  let headers := <["Authorization" := "Bearer " ++ access_token token_response]> ∅ in
  if opt_str_truthy (act_assertion token_response)
  then <["X-Act-Assertion" := default "" (act_assertion token_response)]> headers
  else headers.

(** The arguments of [self.session.request(...)]. *)
Record HttpRequest := {
  req_method : string;
  req_url : string;
  req_headers : gmap string string;
  req_json : option (gmap string PyVal);
  req_timeout : Z;
  req_verify : bool
}.

(** [bool(json_data)] for an [Optional[Dict]]. *)
Definition json_truthy (j : option (gmap string PyVal)) : bool :=
  match j with Some d => negb (bool_decide (d = ∅)) | None => false end.

(** [call_api(token_response, api_url, method, json_data)] of both
    classes (they differ in what they log only); [session_request] is
    [self.session.request], whose exceptions are re-raised unchanged. *)
Definition call_api {Resp : Type} (session_request : HttpRequest -> PyExc + Resp)
    (timeout : Z) (token_response : TokenResponse) (api_url : string)
    (method : string) (json_data : option (gmap string PyVal)) : PyExc + Resp :=
  if negb (String.prefix "https://" api_url) then inl (ValueError "API URL must use HTTPS")
  else
    let headers := prepare_headers token_response in
    let headers :=
      if json_truthy json_data then <["Content-Type" := "application/json"]> headers
      else headers in
    session_request {| req_method := method; req_url := api_url; req_headers := headers;
                       req_json := json_data; req_timeout := timeout; req_verify := true |}.

(* ------------------------------------------------------------------ *)
(** ** [code/python/agbac_config.py] *)

(** [os.getenv(key, dflt)] in environment [env]. *)
Definition getenv (env : gmap string string) (key dflt : string) : string :=
  default dflt (env !! key).

(** [_validate_https_url(url, field_name)]. *)
Definition validate_https_url (url field_name : string) : PyExc + unit :=
  if String.eqb url "" then inl (ConfigurationError (field_name ++ " cannot be empty"))
  else if negb (String.prefix "https://" url) then
    match String.index 0 "://" url with
    | Some i =>
        inl (ConfigurationError (field_name ++ " must use HTTPS for security. " ++
                                 "Got scheme: " ++ substring 0 i url ++ ". " ++
                                 "Change to https://"))
    | None =>
        inl (ConfigurationError (field_name ++ " must use HTTPS and include full URL with scheme. " ++
                                 "Got: " ++ substring 0 50 url ++ "... " ++
                                 "Example: https://example.com/path"))
    end
  else inr tt.

(** [_validate_url_format(url, field_name)]; [urlparse url] is the
    exception [urlparse] raises or its [(scheme, netloc)].  The
    [except Exception] handler also catches the [ConfigurationError]s
    raised inside the [try]. *)
Definition validate_url_format (urlparse : string -> PyExc + (string * string))
    (url field_name : string) : PyExc + unit :=
  let attempt : PyExc + unit :=
    match urlparse url with
    | inl e => inl e
    | inr (scheme, netloc) =>
        if String.eqb scheme "" then
          inl (ConfigurationError (field_name ++ " missing URL scheme. " ++
                                   "Got: " ++ substring 0 50 url ++ "... " ++
                                   "Example: https://example.com/path"))
        else if String.eqb netloc "" then
          inl (ConfigurationError (field_name ++ " missing hostname. " ++
                                   "Got: " ++ substring 0 50 url ++ "... " ++
                                   "Example: https://example.com/path"))
        else inr tt
    end in
  match attempt with
  | inl e => inl (ConfigurationError (field_name ++ " has invalid URL format: " ++ exc_class_name e))
  | inr _ => inr tt
  end.

(** What [os.path.exists], [os.path.isfile] and [os.access(_, os.R_OK)]
    report for a path. *)
Record FileInfo := {
  fi_exists : bool;
  fi_isfile : bool;
  fi_readable : bool
}.

(** [_validate_file_exists(file_path, field_name)] (the world-readable
    check only logs). *)
Definition validate_file_exists (fs : string -> FileInfo) (file_path field_name : string)
    : PyExc + unit :=
  if String.eqb file_path "" then inl (ConfigurationError (field_name ++ " cannot be empty"))
  else if negb (fi_exists (fs file_path)) then
    inl (ConfigurationError (field_name ++ " file does not exist: " ++ file_path))
  else if negb (fi_isfile (fs file_path)) then
    inl (ConfigurationError (field_name ++ " path is not a file: " ++ file_path))
  else if negb (fi_readable (fs file_path)) then
    inl (ConfigurationError (field_name ++ " file is not readable: " ++ file_path ++ ". " ++
                             "Check file permissions."))
  else inr tt.

(** [_get_keycloak_config(client_id, client_secret)]. *)
Definition get_keycloak_config (env : gmap string string) (client_id client_secret : string)
    : PyExc + gmap string PyVal :=
  let token_url := strip (getenv env "KEYCLOAK_TOKEN_URL" "") in
  if String.eqb token_url "" then
    inl (ConfigurationError ("KEYCLOAK_TOKEN_URL environment variable is required for Keycloak. " ++
                             "Example: export KEYCLOAK_TOKEN_URL=https://keycloak.example.com/realms/prod/protocol/openid-connect/token"))
  else
    inr (<["token_url" := PStr token_url]> (<["client_id" := PStr client_id]>
         (<["client_secret" := PStr client_secret]> (<["audience" := PNone]> ∅)))).

(** [_get_auth0_config(client_id, client_secret)]. *)
Definition get_auth0_config (env : gmap string string) (client_id client_secret : string)
    : PyExc + gmap string PyVal :=
  let token_url := strip (getenv env "AUTH0_TOKEN_URL" "") in
  let audience := strip (getenv env "API_AUDIENCE" "") in
  if String.eqb token_url "" then
    inl (ConfigurationError ("AUTH0_TOKEN_URL environment variable is required for Auth0. " ++
                             "Example: export AUTH0_TOKEN_URL=https://tenant.auth0.com/oauth/token"))
  else if String.eqb audience "" then
    inl (ConfigurationError ("API_AUDIENCE environment variable is required for Auth0. " ++
                             "Example: export API_AUDIENCE=https://api.example.com"))
  else if Nat.ltb (String.length audience) 3 then
    inl (ConfigurationError ("API_AUDIENCE appears invalid (too short: " ++
                             py_str_int (Z.of_nat (String.length audience)) ++ " characters)"))
  else
    inr (<["token_url" := PStr token_url]> (<["client_id" := PStr client_id]>
         (<["client_secret" := PStr client_secret]> (<["audience" := PStr audience]> ∅)))).

(** [_get_okta_config(client_id, client_secret)]. *)
Definition get_okta_config (env : gmap string string) (client_id client_secret : string)
    : PyExc + gmap string PyVal :=
  let token_url := strip (getenv env "OKTA_TOKEN_URL" "") in
  let audience := strip (getenv env "API_AUDIENCE" "") in
  if String.eqb token_url "" then
    inl (ConfigurationError ("OKTA_TOKEN_URL environment variable is required for Okta. " ++
                             "Example: export OKTA_TOKEN_URL=https://dev-123.okta.com/oauth2/aus123/v1/token"))
  else if String.eqb audience "" then
    inl (ConfigurationError ("API_AUDIENCE environment variable is required for Okta. " ++
                             "Example: export API_AUDIENCE=https://api.example.com"))
  else if Nat.ltb (String.length audience) 3 then
    inl (ConfigurationError ("API_AUDIENCE appears invalid (too short: " ++
                             py_str_int (Z.of_nat (String.length audience)) ++ " characters)"))
  else
    inr (<["token_url" := PStr token_url]> (<["client_id" := PStr client_id]>
         (<["client_secret" := PStr client_secret]> (<["audience" := PStr audience]> ∅)))).

(** [_get_entraid_config(client_id, client_secret)]. *)
Definition get_entraid_config (fs : string -> FileInfo) (env : gmap string string)
    (client_id client_secret : string) : PyExc + gmap string PyVal :=
  let token_url := strip (getenv env "ENTRAID_TOKEN_URL" "") in
  let scope := strip (getenv env "API_SCOPE" "") in
  let app_private_key_path := strip (getenv env "APP_PRIVATE_KEY_PATH" "") in
  let app_id := strip (getenv env "APP_ID" "") in
  let act_audience := strip (getenv env "API_AUDIENCE" "") in
  if String.eqb token_url "" then
    inl (ConfigurationError ("ENTRAID_TOKEN_URL environment variable is required for EntraID. " ++
                             "Example: export ENTRAID_TOKEN_URL=https://login.microsoftonline.com/tenant-id/oauth2/v2.0/token"))
  else if String.eqb scope "" then
    inl (ConfigurationError ("API_SCOPE environment variable is required for EntraID. " ++
                             "Example: export API_SCOPE=https://api.example.com/.default"))
  else if String.eqb app_private_key_path "" then
    inl (ConfigurationError ("APP_PRIVATE_KEY_PATH environment variable is required for EntraID. " ++
                             "Example: export APP_PRIVATE_KEY_PATH=/keys/app_private_key.pem"))
  else if String.eqb app_id "" then
    inl (ConfigurationError ("APP_ID environment variable is required for EntraID. " ++
                             "Example: export APP_ID=https://app.example.com"))
  else if String.eqb act_audience "" then
    inl (ConfigurationError ("API_AUDIENCE environment variable is required for EntraID. " ++
                             "Example: export API_AUDIENCE=https://api.example.com"))
  else
    match validate_file_exists fs app_private_key_path "APP_PRIVATE_KEY_PATH" with
    | inl e => inl e
    | inr _ =>
        if Nat.ltb (String.length app_id) 3 then
          inl (ConfigurationError ("APP_ID appears invalid (too short: " ++
                                   py_str_int (Z.of_nat (String.length app_id)) ++ " characters)"))
        else if Nat.ltb (String.length act_audience) 3 then
          inl (ConfigurationError ("API_AUDIENCE appears invalid (too short: " ++
                                   py_str_int (Z.of_nat (String.length act_audience)) ++ " characters)"))
        else
          inr (<["token_url" := PStr token_url]> (<["client_id" := PStr client_id]>
               (<["client_secret" := PStr client_secret]> (<["scope" := PStr scope]>
               (<["app_private_key_path" := PStr app_private_key_path]>
               (<["app_id" := PStr app_id]> (<["act_audience" := PStr act_audience]> ∅)))))))
    end.

Definition valid_vendors : list string := ["keycloak"; "auth0"; "okta"; "entraid"].

(** [type(v).__name__]. *)
Definition py_type_name (v : PyVal) : string :=
  match v with
  | PNone => "NoneType"
  | PBool _ => "bool"
  | PInt _ => "int"
  | PStr _ => "str"
  end.

(** [get_vendor()]. *)
Definition get_vendor (env : gmap string string) : string :=
  strip (lower (getenv env "AGBAC_VENDOR" "keycloak")).

(** The [try] block of [get_config(vendor)] ([PNone] is [vendor=None]). *)
Definition get_config_body (urlparse : string -> PyExc + (string * string))
    (fs : string -> FileInfo) (env : gmap string string) (vendor : PyVal)
    : PyExc + gmap string PyVal :=
  let vendor_r : PyExc + string :=
    match vendor with
    | PNone => inr (strip (lower (getenv env "AGBAC_VENDOR" "keycloak")))
    | PStr v => inr (strip (lower v))
    | v => inl (ConfigurationError ("Vendor parameter must be a string, got " ++ py_type_name v))
    end in
  match vendor_r with
  | inl e => inl e
  | inr vendor =>
  if String.eqb vendor "" then
    inl (ConfigurationError ("Vendor cannot be empty. " ++
                             "Set AGBAC_VENDOR environment variable or pass vendor parameter. " ++
                             "Valid values: keycloak, auth0, okta, entraid"))
  else if negb (existsb (String.eqb vendor) valid_vendors) then
    inl (ConfigurationError ("Invalid vendor: '" ++ vendor ++ "'. Must be one of: " ++
                             String.concat ", " valid_vendors))
  else
    let client_id := strip (getenv env "AGENT_CLIENT_ID" "") in
    let client_secret := strip (getenv env "AGENT_CLIENT_SECRET" "") in
    if String.eqb client_id "" then
      inl (ConfigurationError ("AGENT_CLIENT_ID environment variable is required and cannot be empty. " ++
                               "Example: export AGENT_CLIENT_ID=finance-agent"))
    else if String.eqb client_secret "" then
      inl (ConfigurationError ("AGENT_CLIENT_SECRET environment variable is required and cannot be empty. " ++
                               "Example: export AGENT_CLIENT_SECRET=your-secret-here"))
    else if Nat.ltb (String.length client_id) 3 then
      inl (ConfigurationError ("AGENT_CLIENT_ID appears invalid (too short: " ++
                               py_str_int (Z.of_nat (String.length client_id)) ++ " characters). " ++
                               "Client IDs should be at least 3 characters long."))
    else
      let config_r :=
        if String.eqb vendor "keycloak" then get_keycloak_config env client_id client_secret
        else if String.eqb vendor "auth0" then get_auth0_config env client_id client_secret
        else if String.eqb vendor "okta" then get_okta_config env client_id client_secret
        else if String.eqb vendor "entraid" then get_entraid_config fs env client_id client_secret
        else inl (ConfigurationError ("Unsupported vendor: " ++ vendor)) in
      match config_r with
      | inl e => inl e
      | inr config =>
          match dict_get config "token_url" with
          | PStr token_url =>
              match validate_https_url token_url "token_url" with
              | inl e => inl e
              | inr _ =>
                  match validate_url_format urlparse token_url "token_url" with
                  | inl e => inl e
                  | inr _ => inr config
                  end
              end
          | _ => inl AttributeError   (* every [_get_*_config] stores a [str] *)
          end
      end
  end.

(** [get_config(vendor)]: [ConfigurationError] is re-raised, any other
    exception is wrapped (the wrapped message's [: {str(e)}] tail is
    left out). *)
Definition get_config (urlparse : string -> PyExc + (string * string))
    (fs : string -> FileInfo) (env : gmap string string) (vendor : PyVal)
    : PyExc + gmap string PyVal :=
  match get_config_body urlparse fs env vendor with
  | inl (ConfigurationError m) => inl (ConfigurationError m)
  | inl e => inl (ConfigurationError ("Unexpected error loading configuration: " ++ exc_class_name e))
  | inr config => inr config
  end.

(* ------------------------------------------------------------------ *)
(** ** Helpers for the configuration proofs *)

(** Rewrites lookups in a chain of inserts with distinct literal keys. *)
Ltac lookup_chain :=
  repeat first [rewrite lookup_insert_eq | rewrite lookup_insert_ne by discriminate].

(** The keys a configuration returned by a [_get_*_config] builder
    has: the given client id and secret, and a string [token_url]. *)
Definition builder_ok (config : gmap string PyVal) (client_id client_secret : string) : Prop :=
  config !! "client_id" = Some (PStr client_id) /\
  config !! "client_secret" = Some (PStr client_secret) /\
  exists url, config !! "token_url" = Some (PStr url).

(* ------------------------------------------------------------------ *)
(** ** More sample data *)

(** A signed-in user's session. *)
Definition sample_session : gmap string PyVal :=
  <["email" := PStr "alice@example.com"]> (<["name" := PStr "Alice"]> ∅).

(** The act [extract_act_from_session sample_session] returns. *)
Definition sample_session_act : gmap string PyVal :=
  <["name" := PStr "Alice"]> (<["email" := PStr "alice@example.com"]>
  (<["sub" := PStr "alice@example.com"]> ∅)).

(* ================================================================== *)
(** ** Sanity checks *)

Example sample_prepare :
  prepare_out_of_session_act app_sender alice agent_url 60 1000 "n1" = inr sample_token.
Proof. reflexivity. Qed.

Example sample_roundtrip :
  match prepare_out_of_session_act app_sender alice agent_url 60 1000 "n1" with
  | inr tok => fst (receive_and_verify_act_jwt app_verifier tok agent_url 1030) = inr alice
  | inl _ => False
  end.
Proof. vm_compute. reflexivity. Qed.

Example sample_expired :
  match prepare_out_of_session_act app_sender alice agent_url 60 1000 "n1" with
  | inr tok => fst (receive_and_verify_act_jwt app_verifier tok agent_url 1061) = inl Expired
  | inl _ => False
  end.
Proof. vm_compute. reflexivity. Qed.

(* ================================================================== *)
(** ** Verifier lemmas *)

Lemma jwt_decode_shape (pub : N) (algs : list string) (now : Z) (aud : string)
    (tok : Token) (pl : Payload) :
  jwt_decode pub algs now aud tok = inr pl ->
  exists alg sig, tok = Jws alg pl sig.
Proof.
  destruct tok as [|alg pl' sig]; simpl; [discriminate|].
  intros Hd. repeat case_match; simplify_eq; eauto.
Qed.

Lemma receive_key (self : OutOfSessionTokenRequest) (tok : Token) (aud : string)
    (now : Z) :
  _app_public_key (snd (receive_and_verify_act_jwt self tok aud now)) = _app_public_key self.
Proof.
  unfold receive_and_verify_act_jwt.
  destruct (jwt_decode _ _ _ _ _); [done|].
  repeat case_match; simplify_eq; done.
Qed.

Lemma receive_used_mono (self : OutOfSessionTokenRequest) (tok : Token) (aud : string)
    (now : Z) :
  _used_jtis self ⊆ _used_jtis (snd (receive_and_verify_act_jwt self tok aud now)).
Proof.
  unfold receive_and_verify_act_jwt.
  destruct (jwt_decode _ _ _ _ _); [done|].
  repeat case_match; simplify_eq; simpl; set_solver.
Qed.

(** A call that succeeds on a token with a non-empty jti had not seen
    that jti before and records it. *)
Lemma receive_success_jti (self self' : OutOfSessionTokenRequest) (tok : Token)
    (aud : string) (now : Z) (a : gmap string PyVal) (j : string) :
  receive_and_verify_act_jwt self tok aud now = (inr a, self') ->
  tok_jti tok = Some j -> j <> "" ->
  (j ∉ _used_jtis self) /\ (j ∈ _used_jtis self').
Proof.
  unfold receive_and_verify_act_jwt.
  destruct (jwt_decode _ _ _ _ _) as [e|pl] eqn:Hd; [discriminate|].
  apply jwt_decode_shape in Hd as (alg & sig & ->). simpl.
  intros H Hj Hne. rewrite Hj in H.
  apply String.eqb_neq in Hne. rewrite Hne in H. simpl in H.
  destruct (bool_decide (j ∈ _used_jtis self)) eqn:Hin; [discriminate|].
  apply bool_decide_eq_false in Hin.
  repeat case_match; simplify_eq; simpl; split; set_solver.
Qed.

(** A call on a token whose jti was already consumed never succeeds. *)
Lemma receive_used_no_success (self : OutOfSessionTokenRequest) (tok : Token)
    (aud : string) (now : Z) (j : string) :
  tok_jti tok = Some j -> j <> "" -> j ∈ _used_jtis self ->
  fst (receive_and_verify_act_jwt self tok aud now) =
    match jwt_decode (_app_public_key self) ["RS256"] now aud tok with
    | inl e => inl (handle_jwt_error e)
    | inr _ => inl ReplayDetected
    end.
Proof.
  intros Hj Hne Hin. unfold receive_and_verify_act_jwt.
  destruct (jwt_decode _ _ _ _ _) as [e|pl] eqn:Hd; [done|].
  destruct (jwt_decode_shape _ _ _ _ _ _ Hd) as (alg & sig & Htok).
  subst tok. simpl in Hj. rewrite Hj.
  apply String.eqb_neq in Hne. rewrite Hne. simpl.
  rewrite bool_decide_true by done. done.
Qed.

Lemma run_calls_state_key (calls : list (Token * string * Z)) :
  forall self : OutOfSessionTokenRequest,
  _app_public_key (run_calls_state self calls) = _app_public_key self.
Proof.
  induction calls as [|[[tok aud] now] rest IH]; intros self; [done|].
  simpl. rewrite IH. apply receive_key.
Qed.

Lemma run_calls_state_used_mono (calls : list (Token * string * Z)) :
  forall self : OutOfSessionTokenRequest,
  _used_jtis self ⊆ _used_jtis (run_calls_state self calls).
Proof.
  induction calls as [|[[tok aud] now] rest IH]; intros self; [done|].
  simpl. etrans; [apply (receive_used_mono self tok aud now)|apply IH].
Qed.

Lemma count_success_used (calls : list (Token * string * Z)) :
  forall (self : OutOfSessionTokenRequest) (j : string),
  j <> "" -> j ∈ _used_jtis self -> count_success j (run_calls self calls) = 0%nat.
Proof.
  induction calls as [|[[tok aud] now] rest IH]; intros self j Hne Hin; [done|].
  simpl. destruct (receive_and_verify_act_jwt self tok aud now) as [r self'] eqn:Hr.
  assert (Hin' : j ∈ _used_jtis self').
  { pose proof (receive_used_mono self tok aud now) as Hm. rewrite Hr in Hm. set_solver. }
  destruct r as [e|a]; simpl.
  - by apply IH.
  - rewrite (IH self' j Hne Hin').
    case_bool_decide as Hj; [|done].
    pose proof (receive_success_jti self self' tok aud now a j Hr Hj Hne). set_solver.
Qed.

Lemma count_success_le_1 (calls : list (Token * string * Z)) :
  forall (self : OutOfSessionTokenRequest) (j : string),
  j <> "" -> (count_success j (run_calls self calls) <= 1)%nat.
Proof.
  induction calls as [|[[tok aud] now] rest IH]; intros self j Hne; simpl; [lia|].
  destruct (receive_and_verify_act_jwt self tok aud now) as [r self'] eqn:Hr.
  destruct r as [e|a]; simpl; [by apply IH|].
  case_bool_decide as Hj.
  - pose proof (receive_success_jti self self' tok aud now a j Hr Hj Hne) as [_ Hin].
    rewrite (count_success_used rest self' j Hne Hin). lia.
  - by apply IH.
Qed.

Lemma verdict_act_valid (act : gmap string PyVal) (v : PyVal) :
  act !! "sub" = Some v -> act_invalid (Some act) = false.
Proof.
  intros Hsub. unfold act_invalid.
  rewrite bool_decide_false by (intros ->; rewrite lookup_empty in Hsub; discriminate).
  rewrite bool_decide_true by (rewrite Hsub; eauto). done.
Qed.

Lemma existsb_rs256 (alg : string) :
  existsb (String.eqb alg) ["RS256"] = String.eqb alg "RS256".
Proof. simpl. by rewrite orb_false_r. Qed.

(* ================================================================== *)
(** ** Claims on the signed-assertion protocol *)

(** C1 (round trip): for an act dict containing ['sub'], an HTTPS agent
    endpoint, a fresh non-empty nonce and a verification time between
    issuance and expiry, [prepare_out_of_session_act] succeeds and
    [receive_and_verify_act_jwt] with the same audience and the matching
    public key returns the original act (and records the jti). *)
Theorem out_of_session_act_roundtrip (key : N) (act : gmap string PyVal)
    (agent_endpoint : string) (ttl_seconds now t : Z) (jti : string)
    (used : gset string) :
  is_Some (act !! "sub") -> is_https agent_endpoint = true ->
  jti <> "" -> jti ∉ used -> now <= t < now + ttl_seconds ->
  exists tok,
    prepare_out_of_session_act {| _private_key := Some key |} act agent_endpoint
      ttl_seconds now jti = inr tok /\
    receive_and_verify_act_jwt {| _app_public_key := key; _used_jtis := used |}
      tok agent_endpoint t
    = (inr act, {| _app_public_key := key; _used_jtis := {[jti]} ∪ used |}).
Proof.
  intros [v Hsub] Hhttps Hjti Hfresh Ht.
  assert (Hep : String.eqb agent_endpoint "" = false).
  { apply String.eqb_neq. intros ->. discriminate. }
  pose proof (verdict_act_valid act v Hsub) as Hact.
  unfold act_invalid in Hact. apply orb_false_iff in Hact as [Hempty Hhas].
  unfold prepare_out_of_session_act. simpl.
  rewrite Hempty, Hhas, Hep, Hhttps. simpl.
  eexists; split; [reflexivity|].
  unfold receive_and_verify_act_jwt, jwt_decode, jwt_encode. simpl.
  rewrite bool_decide_true by done.
  destruct (Z.ltb_spec t now); [lia|].
  destruct (Z.leb_spec (now + ttl_seconds) t); [lia|].
  rewrite Hep, String.eqb_refl. simpl.
  apply String.eqb_neq in Hjti. rewrite Hjti.
  rewrite bool_decide_false by done. simpl.
  rewrite Hempty, Hhas. reflexivity.
Qed.

Lemma out_of_session_act_roundtrip_witness :
  exists tok,
    prepare_out_of_session_act app_sender alice agent_url 60 1000 "n1" = inr tok /\
    receive_and_verify_act_jwt app_verifier tok agent_url 1030
    = (inr alice, {| _app_public_key := 7%N; _used_jtis := {["n1"]} ∪ ∅ |}).
Proof.
  apply (out_of_session_act_roundtrip 7%N alice agent_url 60 1000 1030 "n1" ∅).
  - unfold alice. rewrite lookup_insert_eq. eexists; reflexivity.
  - reflexivity.
  - discriminate.
  - set_solver.
  - lia.
Defined.

(** C2 (replay, as the code does it): once a call on a token with a
    non-empty jti has succeeded, every later call with that token on the
    same handler, after any sequence of intermediate calls, never
    succeeds: at whatever time and audience, it fails with the
    [jwt.decode] error when the signature/iat/expiry/audience checks
    fail there (e.g. [Expired] after [exp]) and with [ReplayDetected]
    otherwise; and in every call sequence at most one call succeeds on
    tokens carrying a given non-empty jti. *)
Theorem verify_replay_second_call (self self1 : OutOfSessionTokenRequest)
    (tok : Token) (j aud1 : string) (t1 : Z) (act : gmap string PyVal) :
  tok_jti tok = Some j -> j <> "" ->
  receive_and_verify_act_jwt self tok aud1 t1 = (inr act, self1) ->
  (forall (calls : list (Token * string * Z)) (aud2 : string) (t2 : Z),
     fst (receive_and_verify_act_jwt (run_calls_state self1 calls) tok aud2 t2) =
       match jwt_decode (_app_public_key self) ["RS256"] t2 aud2 tok with
       | inl e => inl (handle_jwt_error e)
       | inr _ => inl ReplayDetected
       end) /\
  (forall (s : OutOfSessionTokenRequest) (calls : list (Token * string * Z)),
      (count_success j (run_calls s calls) <= 1)%nat).
Proof.
  intros Hj Hne Hr. split.
  - intros calls aud2 t2.
    pose proof (receive_key self tok aud1 t1) as Hk. rewrite Hr in Hk. simpl in Hk.
    rewrite <- Hk, <- (run_calls_state_key calls self1).
    apply (receive_used_no_success _ tok aud2 t2 j Hj Hne).
    apply (run_calls_state_used_mono calls self1).
    apply (receive_success_jti self self1 tok aud1 t1 act j Hr Hj Hne).
  - intros s calls. by apply count_success_le_1.
Qed.

Lemma verify_replay_second_call_witness :
  fst (receive_and_verify_act_jwt
         (run_calls_state {| _app_public_key := 7%N; _used_jtis := {["n1"]} ∪ ∅ |}
            [(jwt_encode no_act_payload 7%N "RS256", agent_url, 1005)])
         sample_token agent_url 1010)
  = inl ReplayDetected.
Proof.
  destruct (verify_replay_second_call app_verifier
    {| _app_public_key := 7%N; _used_jtis := {["n1"]} ∪ ∅ |}
    sample_token "n1" agent_url 1000 alice) as [H _].
  - reflexivity.
  - discriminate.
  - vm_compute. reflexivity.
  - rewrite H. vm_compute. reflexivity.
Defined.

(** C2 counterexample: a token verified successfully at its issuance
    time and presented again at its [exp] fails with [Expired], not
    [ReplayDetected]. *)
Lemma verify_replay_second_call_expired :
  let '(r1, self1) := receive_and_verify_act_jwt app_verifier sample_token agent_url 1000 in
  r1 = inr alice /\
  fst (receive_and_verify_act_jwt self1 sample_token agent_url 1060) = inl Expired /\
  fst (receive_and_verify_act_jwt self1 sample_token agent_url 1060) <> inl ReplayDetected.
Proof.
  vm_compute. split; [reflexivity | split; [reflexivity | discriminate]].
Qed.

(** C3 (as the code does it): a token whose signature does not verify
    under the handler's public key with RS256 is rejected at the
    signature stage, before any payload claim is read, and leaves the
    replay store unchanged: with header algorithm RS256 (e.g. signed by
    another key, or tampered) it fails with [SignatureInvalid]; with any
    other algorithm (["none"], ["HS256"], ...) with the generic
    [InvalidToken InvalidAlgorithmError]; a malformed string with
    [InvalidToken DecodeError]. *)
Theorem unverified_signature_rejected (self : OutOfSessionTokenRequest)
    (tok : Token) (aud : string) (t : Z) :
  signature_verifies (_app_public_key self) tok = false ->
  receive_and_verify_act_jwt self tok aud t = (inl (rejection_for_unverified tok), self).
Proof.
  destruct tok as [|alg pl sig]; [done|]. simpl. intros Hsig.
  unfold receive_and_verify_act_jwt, jwt_decode. rewrite existsb_rs256.
  destruct (String.eqb alg "RS256") eqn:Ha; simpl in *.
  - apply String.eqb_eq in Ha. subst alg.
    rewrite Hsig. reflexivity.
  - reflexivity.
Qed.

Lemma unverified_signature_rejected_witness :
  receive_and_verify_act_jwt app_verifier (jwt_encode sample_payload 8%N "RS256")
    agent_url 1010 = (inl SignatureInvalid, app_verifier).
Proof.
  apply (unverified_signature_rejected app_verifier
           (jwt_encode sample_payload 8%N "RS256") agent_url 1010).
  vm_compute. reflexivity.
Defined.

(** C3 counterexample: an unsigned token (header ["none"], empty
    signature) is rejected with the generic invalid-token error, not
    [SignatureInvalid]. *)
Lemma unsigned_token_not_signature_invalid :
  fst (receive_and_verify_act_jwt app_verifier (Jws "none" sample_payload None)
         agent_url 1010) = inl (InvalidToken InvalidAlgorithmError) /\
  fst (receive_and_verify_act_jwt app_verifier (Jws "none" sample_payload None)
         agent_url 1010) <> inl SignatureInvalid.
Proof. vm_compute. split; [reflexivity | discriminate]. Qed.

(** Every RS256 token signed with the handler's key passes the
    allow-list and the signature check. *)
Lemma jwt_decode_signed (key : N) (pl : Payload) (t : Z) (aud : string) :
  jwt_decode key ["RS256"] t aud (jwt_encode pl key "RS256") =
    if (match pl_iat pl with Some iat => Z.ltb t iat | None => false end)
    then inl ImmatureSignatureError
    else if (match pl_exp pl with Some exp => Z.leb exp t | None => false end)
    then inl ExpiredSignatureError
    else match pl_aud pl with
         | None => inl MissingRequiredClaimError
         | Some a =>
             if String.eqb a "" then inl MissingRequiredClaimError
             else if String.eqb a aud then inr pl
             else inl InvalidAudienceError
         end.
Proof.
  unfold jwt_decode, jwt_encode. simpl. rewrite bool_decide_true by done. reflexivity.
Qed.

(** C4: a token correctly signed with RS256 by the handler's key,
    verified at a time strictly after its [exp] (and not before its
    [iat], i.e. after it was issued), fails with [Expired] whatever the
    expected audience, and leaves the replay store unchanged. *)
Theorem expired_assertion_rejected (self : OutOfSessionTokenRequest) (pl : Payload)
    (aud : string) (t exp : Z) :
  pl_exp pl = Some exp -> exp < t ->
  (forall iat, pl_iat pl = Some iat -> iat <= t) ->
  receive_and_verify_act_jwt self (jwt_encode pl (_app_public_key self) "RS256") aud t
  = (inl Expired, self).
Proof.
  intros Hexp Hlt Hiat. unfold receive_and_verify_act_jwt.
  rewrite jwt_decode_signed, Hexp.
  destruct (pl_iat pl) as [iat|] eqn:Hi.
  - specialize (Hiat iat eq_refl).
    destruct (Z.ltb_spec t iat); [lia|].
    destruct (Z.leb_spec exp t); [reflexivity|lia].
  - destruct (Z.leb_spec exp t); [reflexivity|lia].
Qed.

Lemma expired_assertion_rejected_witness :
  receive_and_verify_act_jwt app_verifier sample_token agent_url 1061
  = (inl Expired, app_verifier).
Proof.
  apply (expired_assertion_rejected app_verifier sample_payload agent_url 1061 1060).
  - reflexivity.
  - lia.
  - intros iat Hi. injection Hi as <-. lia.
Defined.

(** C5: a token correctly signed with RS256 by the handler's key, issued
    for a (non-empty) audience [a], verified within its validity window
    against an expected audience other than [a] fails with
    [AudienceMismatch] and leaves the replay store unchanged. *)
Theorem audience_mismatch_rejected (self : OutOfSessionTokenRequest) (pl : Payload)
    (a aud : string) (t : Z) :
  pl_aud pl = Some a -> a <> "" -> a <> aud ->
  (forall iat, pl_iat pl = Some iat -> iat <= t) ->
  (forall exp, pl_exp pl = Some exp -> t < exp) ->
  receive_and_verify_act_jwt self (jwt_encode pl (_app_public_key self) "RS256") aud t
  = (inl AudienceMismatch, self).
Proof.
  intros Haud Hne Hdiff Hiat Hexp. unfold receive_and_verify_act_jwt.
  rewrite jwt_decode_signed, Haud.
  assert (Hi : match pl_iat pl with Some iat => Z.ltb t iat | None => false end = false).
  { destruct (pl_iat pl) as [iat|]; [|done].
    specialize (Hiat iat eq_refl). apply Z.ltb_ge. lia. }
  assert (He : match pl_exp pl with Some exp => Z.leb exp t | None => false end = false).
  { destruct (pl_exp pl) as [exp|]; [|done].
    specialize (Hexp exp eq_refl). apply Z.leb_gt. lia. }
  rewrite Hi, He.
  apply String.eqb_neq in Hne, Hdiff. rewrite Hne, Hdiff. reflexivity.
Qed.

Lemma audience_mismatch_rejected_witness :
  receive_and_verify_act_jwt app_verifier sample_token "https://other.example.com" 1010
  = (inl AudienceMismatch, app_verifier).
Proof.
  apply (audience_mismatch_rejected app_verifier sample_payload agent_url
           "https://other.example.com" 1010).
  - reflexivity.
  - discriminate.
  - discriminate.
  - intros iat Hi. injection Hi as <-. lia.
  - intros exp He. injection He as <-. lia.
Defined.

(** C6 (as the code does it): with a signing key configured and an act
    dict containing ['sub'], [prepare_out_of_session_act] fails with
    [InvalidAssertionRequest] exactly when the agent endpoint does not
    start with ["https://"]; [ttl_seconds] is not validated: for every
    HTTPS endpoint and every [ttl_seconds] it returns an RS256 token
    whose payload has [iat = now] and [exp = now + ttl_seconds], so
    [exp > iat] holds exactly when [ttl_seconds > 0]. *)
Theorem prepare_out_of_session_act_validation (key : N) (act : gmap string PyVal)
    (agent_endpoint : string) (ttl_seconds now : Z) (jti : string) :
  is_Some (act !! "sub") ->
  (prepare_out_of_session_act {| _private_key := Some key |} act agent_endpoint
     ttl_seconds now jti = inl InvalidAssertionRequest
   <-> is_https agent_endpoint = false) /\
  (is_https agent_endpoint = true ->
   exists pl,
     prepare_out_of_session_act {| _private_key := Some key |} act agent_endpoint
       ttl_seconds now jti = inr (jwt_encode pl key "RS256") /\
     pl_aud pl = Some agent_endpoint /\
     pl_iat pl = Some now /\ pl_exp pl = Some (now + ttl_seconds) /\
     (now + ttl_seconds > now <-> ttl_seconds > 0)).
Proof.
  intros [v Hsub].
  pose proof (verdict_act_valid act v Hsub) as Hact.
  unfold act_invalid in Hact. apply orb_false_iff in Hact as [Hempty Hhas].
  unfold prepare_out_of_session_act. simpl. rewrite Hempty, Hhas. simpl.
  destruct (is_https agent_endpoint) eqn:Hh.
  - assert (Hep : String.eqb agent_endpoint "" = false).
    { apply String.eqb_neq. intros ->. discriminate. }
    rewrite Hep. simpl. split.
    + split; discriminate.
    + intros _. eexists; split; [reflexivity|]. simpl. repeat split; lia.
  - rewrite orb_true_r. split; [done | discriminate].
Qed.

Lemma prepare_out_of_session_act_validation_witness :
  prepare_out_of_session_act app_sender alice "http://agent.example.com" 60 1000 "n1"
  = inl InvalidAssertionRequest.
Proof.
  destruct (prepare_out_of_session_act_validation 7%N alice "http://agent.example.com"
              60 1000 "n1") as [[_ H] _].
  - unfold alice. rewrite lookup_insert_eq. eexists; reflexivity.
  - apply H. reflexivity.
Defined.

(** C6 counterexample: [ttl_seconds = 0] is accepted and yields a
    payload with [exp = iat]. *)
Lemma prepare_out_of_session_act_zero_ttl :
  prepare_out_of_session_act app_sender alice agent_url 0 1000 "n1" =
    inr (jwt_encode {| pl_iss := Some "application"; pl_sub := Some "application";
                       pl_aud := Some agent_url; pl_exp := Some 1000; pl_iat := Some 1000;
                       pl_jti := Some "n1"; pl_act := Some alice |} 7%N "RS256").
Proof. reflexivity. Qed.

(** C9: the jti is consumed before the act claim is checked.  For a
    token that passes [jwt.decode] (signature, expiry, audience) at two
    times, carries a fresh non-empty jti and whose act is missing or
    lacks ['sub'], the first call fails with [MalformedClaim] yet adds
    the jti to [_used_jtis], and a second call then fails with
    [ReplayDetected]. *)
Theorem malformed_act_consumes_jti (self : OutOfSessionTokenRequest) (tok : Token)
    (aud : string) (t1 t2 : Z) (pl : Payload) (j : string) :
  jwt_decode (_app_public_key self) ["RS256"] t1 aud tok = inr pl ->
  jwt_decode (_app_public_key self) ["RS256"] t2 aud tok = inr pl ->
  pl_jti pl = Some j -> j <> "" -> j ∉ _used_jtis self ->
  (pl_act pl = None \/ exists a, pl_act pl = Some a /\ a !! "sub" = None) ->
  receive_and_verify_act_jwt self tok aud t1
    = (inl MalformedClaim, set_used_jtis self ({[j]} ∪ _used_jtis self)) /\
  fst (receive_and_verify_act_jwt (set_used_jtis self ({[j]} ∪ _used_jtis self))
         tok aud t2) = inl ReplayDetected.
Proof.
  intros Hd1 Hd2 Hj Hne Hfresh Hact.
  assert (Hinv : act_invalid (pl_act pl) = true).
  { destruct Hact as [-> | (a & -> & Ha)]; [done|].
    unfold act_invalid. cbv iota beta. rewrite Ha.
    rewrite (bool_decide_false (is_Some None)) by (intros [? ?]; discriminate).
    apply orb_true_r. }
  destruct (jwt_decode_shape _ _ _ _ _ _ Hd1) as (alg & sig & Htok).
  apply String.eqb_neq in Hne as Hne'.
  split.
  - unfold receive_and_verify_act_jwt. rewrite Hd1, Hj, Hne'. simpl.
    rewrite bool_decide_false by done. rewrite Hinv. reflexivity.
  - rewrite (receive_used_no_success _ tok aud t2 j); [| by subst tok | done | simpl; set_solver].
    simpl. rewrite Hd2. reflexivity.
Qed.

Lemma malformed_act_consumes_jti_witness :
  receive_and_verify_act_jwt app_verifier (jwt_encode no_act_payload 7%N "RS256")
    agent_url 1010
  = (inl MalformedClaim, set_used_jtis app_verifier ({["n2"]} ∪ ∅)) /\
  fst (receive_and_verify_act_jwt (set_used_jtis app_verifier ({["n2"]} ∪ ∅))
         (jwt_encode no_act_payload 7%N "RS256") agent_url 1020) = inl ReplayDetected.
Proof.
  apply (malformed_act_consumes_jti app_verifier (jwt_encode no_act_payload 7%N "RS256")
           agent_url 1010 1020 no_act_payload "n2").
  - vm_compute. reflexivity.
  - vm_compute. reflexivity.
  - reflexivity.
  - discriminate.
  - set_solver.
  - left. reflexivity.
Defined.

(* ================================================================== *)
(** ** Session extraction, adapter construction, adapter errors *)

Lemma py_or_falsy (a b : PyVal) : truthy a = false -> py_or a b = b.
Proof. unfold py_or. by intros ->. Qed.

Lemma truthy_py_or (a b : PyVal) : truthy (py_or a b) = truthy a || truthy b.
Proof. unfold py_or. by destruct (truthy a) eqn:Ha; [rewrite Ha|]. Qed.

Lemma session_email_falsy (session : gmap string PyVal) :
  truthy (session_email session) = false <->
  Forall (fun k => truthy (dict_get session k) = false) email_fields.
Proof.
  unfold session_email, email_fields. rewrite !truthy_py_or, !Forall_cons, Forall_nil.
  rewrite !orb_false_iff. tauto.
Qed.

Lemma session_email_truthy (session : gmap string PyVal) :
  truthy (session_email session) = true <->
  Exists (fun k => truthy (dict_get session k) = true) email_fields.
Proof.
  unfold session_email, email_fields. rewrite !truthy_py_or, !Exists_cons, Exists_nil.
  rewrite !orb_true_iff. tauto.
Qed.

Lemma sanitize_identifier_inl (v : PyVal) (e : PyExc) :
  sanitize_identifier v = inl e -> e = AttributeError.
Proof. unfold sanitize_identifier. repeat case_match; congruence. Qed.

Lemma sanitize_identifier_str (s : string) : sanitize_identifier (PStr s) = inr tt.
Proof. unfold sanitize_identifier. by destruct (truthy (PStr s)). Qed.

(** C10 (as the code does it): for a session dict in which some
    email-equivalent field ([email], [user_email], [userPrincipalName],
    [mail]) holds a truthy value, the first such value (the extracted
    email) is a string, and no subject field ([sub], [user_id], [oid])
    holds a truthy value, [extract_act_from_session] succeeds with
    [act['sub'] = act['email'] =] the extracted email; and for a
    non-empty session it fails with "Session must contain email"
    exactly when no email-equivalent field holds a truthy value,
    whatever the subject fields hold. *)
Theorem extract_act_from_session_email_as_sub (session : gmap string PyVal) :
  (Exists (fun k => truthy (dict_get session k) = true) email_fields ->
   Forall (fun k => truthy (dict_get session k) = false) subject_fields ->
   (exists e, session_email session = PStr e) ->
   exists act, extract_act_from_session session = inr act /\
     act !! "sub" = Some (session_email session) /\
     act !! "email" = Some (session_email session)) /\
  (session <> ∅ ->
   (extract_act_from_session session = inl (ValueError "Session must contain email") <->
    Forall (fun k => truthy (dict_get session k) = false) email_fields)).
Proof.
  split.
  - intros Hex Hsub [e He].
    apply session_email_truthy in Hex as Ht.
    assert (Hne : session <> ∅).
    { intros ->. rewrite He in Ht. vm_compute in He. discriminate. }
    unfold subject_fields in Hsub. rewrite !Forall_cons in Hsub.
    destruct Hsub as (H1 & H2 & H3 & _).
    unfold extract_act_from_session.
    rewrite bool_decide_false by done. rewrite Ht. simpl.
    rewrite (py_or_falsy _ (session_email session))
      by (rewrite !truthy_py_or, H1, H2, H3; reflexivity).
    rewrite He, sanitize_identifier_str.
    destruct (truthy (py_or (py_or (dict_get session "name") _) _));
      eexists; (split; [reflexivity|]); split; reflexivity.
  - intros Hne. rewrite <- session_email_falsy.
    unfold extract_act_from_session. rewrite bool_decide_false by done.
    destruct (truthy (session_email session)) eqn:Ht; simpl.
    + split; [|discriminate].
      destruct (sanitize_identifier _) as [e|] eqn:Hs; [|discriminate].
      apply sanitize_identifier_inl in Hs. subst e. discriminate.
    + split; reflexivity.
Qed.

(** A session carrying only an email. *)
Lemma extract_act_from_session_email_as_sub_witness :
  exists act,
    extract_act_from_session (<["email" := PStr "alice@example.com"]> ∅) = inr act /\
    act !! "sub" = Some (PStr "alice@example.com") /\
    act !! "email" = Some (PStr "alice@example.com").
Proof.
  destruct (extract_act_from_session_email_as_sub
              (<["email" := PStr "alice@example.com"]> ∅)) as [H _].
  apply H.
  - vm_compute. left. reflexivity.
  - vm_compute. repeat constructor.
  - exists "alice@example.com". reflexivity.
Defined.

(** C10 counterexample: a session whose [email] field is present but
    empty, with no subject field, is rejected. *)
Lemma extract_act_from_session_empty_email :
  (<["email" := PStr ""]> ∅ : gmap string PyVal) !! "email" = Some (PStr "") /\
  extract_act_from_session (<["email" := PStr ""]> ∅)
  = inl (ValueError "Session must contain email").
Proof. split; reflexivity. Qed.

(** C8 (as the code does it): [BaseAdapter.__init__] rejects a
    configuration with [ValueError] (not [ConfigurationError]) when one
    of [token_url], [client_id], [client_secret] is absent, or when
    [token_url] is a string not starting with ["https://"]; it succeeds
    only when all three are present and [token_url] is a string starting
    with ["https://"], and then does succeed whenever [client_id] is a
    string.  The positional-argument [EntraIDAdapter] and [OktaAdapter]
    constructors validate nothing: they keep any token URL. *)
Theorem base_adapter_init_validation (config : gmap string PyVal) :
  ((config !! "token_url" = None \/ config !! "client_id" = None \/
    config !! "client_secret" = None) ->
   exists msg, base_adapter_init config = inl (ValueError msg)) /\
  (forall url, is_Some (config !! "client_id") -> is_Some (config !! "client_secret") ->
   config !! "token_url" = Some (PStr url) -> is_https url = false ->
   base_adapter_init config = inl (ValueError "Token URL must use HTTPS (https://)")) /\
  (forall st, base_adapter_init config = inr st ->
   is_Some (config !! "client_id") /\ is_Some (config !! "client_secret") /\
   config !! "token_url" = Some (PStr (ba_token_url st)) /\
   is_https (ba_token_url st) = true) /\
  (forall url cid, is_Some (config !! "client_secret") ->
   config !! "token_url" = Some (PStr url) -> is_https url = true ->
   config !! "client_id" = Some (PStr cid) ->
   exists st, base_adapter_init config = inr st) /\
  (forall u cid sec tid, token_url (EntraIDAdapter_init u cid sec tid) = u /\
                         token_url (OktaAdapter_init u cid sec) = u).
Proof.
  unfold base_adapter_init, required_fields, dict_get.
  rewrite !filter_cons, filter_nil.
  split; [|split; [|split; [|split]]].
  - intros Hmiss.
    destruct (config !! "token_url") eqn:E1, (config !! "client_id") eqn:E2,
      (config !! "client_secret") eqn:E3;
      try (destruct Hmiss as [?|[?|?]]; discriminate);
      simpl; rewrite ?E1, ?E2, ?E3; simpl; eexists; reflexivity.
  - intros url [v2 E2] [v3 E3] E1 Hh.
    simpl. rewrite E1, E2, E3. simpl. rewrite Hh. reflexivity.
  - intros st.
    destruct (config !! "token_url") as [v1|] eqn:E1, (config !! "client_id") eqn:E2,
      (config !! "client_secret") eqn:E3; simpl; rewrite ?E1, ?E2, ?E3; simpl;
      try discriminate.
    destruct v1 as [| | |url]; try discriminate. simpl.
    destruct (is_https url) eqn:Hh; simpl; [|discriminate].
    destruct (sanitize_identifier _); [discriminate|].
    intros Hst. injection Hst as <-. simpl. eauto.
  - intros url cid [v3 E3] E1 Hh E2.
    simpl. rewrite E1, E2, E3. simpl. rewrite Hh. simpl.
    rewrite sanitize_identifier_str. eexists; reflexivity.
  - intros. split; reflexivity.
Qed.

Lemma base_adapter_init_validation_witness :
  exists st, base_adapter_init good_config = inr st.
Proof.
  destruct (base_adapter_init_validation good_config) as (_ & _ & _ & H & _).
  apply (H "https://idp.example.com/token" "agent-1").
  - eexists; reflexivity.
  - reflexivity.
  - reflexivity.
  - reflexivity.
Defined.

(** C8 counterexample: a configuration without [client_secret] is
    rejected with [ValueError], not [ConfigurationError]. *)
Lemma base_adapter_init_missing_secret :
  base_adapter_init (<["token_url" := PStr "https://idp.example.com/token"]>
                     (<["client_id" := PStr "agent-1"]> ∅))
  = inl (ValueError "Missing required configuration: client_secret") /\
  (forall msg, base_adapter_init (<["token_url" := PStr "https://idp.example.com/token"]>
                                  (<["client_id" := PStr "agent-1"]> ∅))
               <> inl (ConfigurationError msg)).
Proof. split; [reflexivity | intros msg; vm_compute; discriminate]. Qed.

(** C7 (as the code does it): the Auth0, Okta and EntraID adapters
    surface a 4xx/5xx provider response as the [requests.HTTPError]
    raised by [raise_for_status()] and a network failure as the
    [requests] connection error, both re-raised unchanged (never a
    [TokenRequestError]); the [HTTPError] carries the provider's
    response (status, reason, body) and, like the connection error, the
    request, whose posted body holds the client secret.  Through
    [InSessionTokenRequest.request_token] (valid inputs) either failure
    becomes [TokenRequestError("Unexpected error: <class name>")] with
    [status_code = None] and that exception as its [__context__]: the
    provider status is not attached, and the secret and the provider's
    body stay reachable from the error. *)
Theorem vendor_request_token_errors
    (post : string -> TokenRequestBody -> HttpOutcome) (va : VendorAdapter)
    (agent_id : string) (act : gmap string PyVal) (scope : list string)
    (has_attrs : gmap string PyVal -> bool) :
  let payload := request_body va agent_id act scope in
  rb_client_secret payload = client_secret va /\
  (forall response,
     post (token_url va) payload = Response response ->
     400 <= resp_status response < 600 ->
     vendor_request_token post va agent_id act scope
     = inl (HTTPError response (token_url va) payload) /\
     (agent_id <> "" -> is_Some (act !! "sub") -> scope <> [] ->
      in_session_request_token (vendor_request_token post va) has_attrs agent_id act scope
      = inl (TokenRequestError "Unexpected error: HTTPError" None
               (Some (HTTPError response (token_url va) payload))))) /\
  (post (token_url va) payload = NetworkFailure ->
   vendor_request_token post va agent_id act scope
   = inl (RequestsConnectionError (token_url va) payload) /\
   (agent_id <> "" -> is_Some (act !! "sub") -> scope <> [] ->
    in_session_request_token (vendor_request_token post va) has_attrs agent_id act scope
    = inl (TokenRequestError "Unexpected error: ConnectionError" None
             (Some (RequestsConnectionError (token_url va) payload))))).
Proof.
  intros payload.
  assert (Hvalid : agent_id <> "" -> is_Some (act !! "sub") -> scope <> [] ->
     String.eqb agent_id "" || bool_decide (act = ∅)
     || negb (bool_decide (is_Some (act !! "sub"))) || bool_decide (scope = []) = false).
  { intros Ha [v Hs] Hsc.
    apply String.eqb_neq in Ha. rewrite Ha.
    rewrite (bool_decide_false (act = ∅))
      by (intros ->; rewrite lookup_empty in Hs; discriminate).
    rewrite (bool_decide_true (is_Some _)) by (rewrite Hs; eauto).
    rewrite bool_decide_false by done. reflexivity. }
  split; [reflexivity|]. split.
  - intros response Hpost Hst.
    assert (Hv : vendor_request_token post va agent_id act scope
                 = inl (HTTPError response (token_url va) payload)).
    { unfold vendor_request_token. fold payload. rewrite Hpost.
      destruct (Z.leb_spec 400 (resp_status response)); [|lia].
      destruct (Z.ltb_spec (resp_status response) 600); [|lia]. reflexivity. }
    split; [exact Hv|].
    intros Ha Hs Hsc. unfold in_session_request_token.
    rewrite (Hvalid Ha Hs Hsc), Hv. reflexivity.
  - intros Hpost.
    assert (Hv : vendor_request_token post va agent_id act scope
                 = inl (RequestsConnectionError (token_url va) payload)).
    { unfold vendor_request_token. fold payload. rewrite Hpost. reflexivity. }
    split; [exact Hv|].
    intros Ha Hs Hsc. unfold in_session_request_token.
    rewrite (Hvalid Ha Hs Hsc), Hv. reflexivity.
Qed.

Lemma vendor_request_token_errors_witness :
  in_session_request_token (vendor_request_token post_500 auth0_adapter) (fun _ => false)
    "agent-1" (<["sub" := PStr "user:alice@example.com"]> ∅) ["read"]
  = inl (TokenRequestError "Unexpected error: HTTPError" None
           (Some (HTTPError
                    {| resp_status := 500; resp_reason := "Internal Server Error";
                       resp_text := "upstream error: invalid_client"; resp_json := None |}
                    (token_url auth0_adapter)
                    (request_body auth0_adapter "agent-1"
                       (<["sub" := PStr "user:alice@example.com"]> ∅) ["read"])))).
Proof.
  destruct (vendor_request_token_errors post_500 auth0_adapter "agent-1"
              (<["sub" := PStr "user:alice@example.com"]> ∅) ["read"] (fun _ => false))
    as [_ [H _]].
  apply (H {| resp_status := 500; resp_reason := "Internal Server Error";
              resp_text := "upstream error: invalid_client"; resp_json := None |}).
  - reflexivity.
  - simpl. lia.
  - discriminate.
  - eexists; reflexivity.
  - discriminate.
Defined.

(** C7 counterexample: an HTTP 500 from the provider reaches the caller
    of [InSessionTokenRequest.request_token] as a [TokenRequestError]
    with no status code, whose [__context__] is the [requests.HTTPError]
    holding the provider's response body and the posted request with
    the client secret. *)
Lemma vendor_request_token_500_no_status :
  match in_session_request_token (vendor_request_token post_500 auth0_adapter) (fun _ => false)
          "agent-1" (<["sub" := PStr "user:alice@example.com"]> ∅) ["read"] with
  | inl (TokenRequestError _ status_code (Some (HTTPError response _ request))) =>
      status_code = None /\ resp_status response = 500 /\
      resp_text response = "upstream error: invalid_client" /\
      rb_client_secret request = "s3cret"
  | _ => False
  end.
Proof. vm_compute. repeat split. Qed.

(* ================================================================== *)
(** ** Log sanitisation, act validation, error and response rendering *)

Lemma substring_0_length (m : nat) (s : string) :
  (String.length (substring 0 m s) <= m)%nat.
Proof.
  revert s. induction m as [|m IH]; intros [|c s]; simpl; try lia.
  specialize (IH s). lia.
Qed.

Lemma substring_0_prefix (m : nat) (s : string) :
  exists rest, s = substring 0 m s ++ rest.
Proof.
  revert s. induction m as [|m IH]; intros [|c s]; simpl.
  - exists ""; reflexivity.
  - exists (String c s); reflexivity.
  - exists ""; reflexivity.
  - destruct (IH s) as [rest Hr]. exists rest. rewrite Hr at 1. reflexivity.
Qed.

Lemma substring_0_all (m : nat) (s : string) :
  (String.length s <= m)%nat -> substring 0 m s = s.
Proof.
  revert s. induction m as [|m IH]; intros [|c s] Hl; simpl in *; try lia; try done.
  rewrite IH by lia. reflexivity.
Qed.

Lemma str_app_nil (b : string) : "" ++ b = b.
Proof. reflexivity. Qed.

Lemma str_app_cons (c : ascii) (a b : string) : String c a ++ b = String c (a ++ b).
Proof. reflexivity. Qed.

Lemma str_length_app (a b : string) :
  String.length (a ++ b) = (String.length a + String.length b)%nat.
Proof.
  induction a as [|c a IH]; [reflexivity|]. rewrite str_app_cons. simpl. lia.
Qed.

Lemma app_prefix_inj (p a b : string) : p ++ a = p ++ b <-> a = b.
Proof.
  split; [|intros ->; reflexivity].
  induction p as [|c p IH]; [done|]. rewrite !str_app_cons. intros H.
  injection H as H. auto.
Qed.

Lemma value_error_prefix_inj {A} (p a b : string) :
  (inl (ValueError (p ++ a)) : PyExc + A) = inl (ValueError (p ++ b)) <-> a = b.
Proof.
  rewrite <- (app_prefix_inj p a b). split; [intros H; injection H as H; exact H|].
  intros ->; reflexivity.
Qed.

(** X1: [_sanitize_identifier] (both the adapter's and the sender's)
    returns ["unknown"] exactly for the empty identifier: the
    ["<prefix>_<hash>"] form never collides with it. *)
Theorem sanitize_identifier_unknown_iff_empty (sha : string -> string) (s : string) :
  (base_sanitize_identifier sha s = "unknown" <-> s = "") /\
  (hs_sanitize_identifier sha s = "unknown" <-> s = "").
Proof.
  unfold base_sanitize_identifier, hs_sanitize_identifier.
  destruct (String.eqb_spec s "") as [->|Hne]; [split; split; reflexivity|].
  split; split; try (intros; contradiction);
    repeat case_match; simpl; discriminate.
Qed.

(** X2: the sender's and the adapter's [_sanitize_identifier] agree on
    an identifier exactly when it is empty, contains ['@'], or starts
    with neither ['0oa'] nor ['a1b2'] (the adapter logs those as
    ["app_..."], the sender as ["id_..."]). *)
Theorem sanitizers_agree_iff (sha : string -> string) (s : string) :
  hs_sanitize_identifier sha s = base_sanitize_identifier sha s <->
  s = "" \/ str_contains_char "@"%char s = true \/
  (String.prefix "0oa" s || String.prefix "a1b2" s) = false.
Proof.
  unfold base_sanitize_identifier, hs_sanitize_identifier.
  destruct (String.eqb_spec s "") as [->|Hne]; [split; auto|].
  destruct (str_contains_char "@"%char s); [split; auto|].
  destruct (String.prefix "0oa" s || String.prefix "a1b2" s); simpl.
  - split; [discriminate|]. intros [H|[H|H]]; congruence.
  - split; auto.
Qed.

(** X3: a sanitized identifier is at most 17 characters long (prefix,
    underscore and the first 12 hex digits), whatever the identifier. *)
Theorem sanitized_identifier_length (sha : string -> string) (s : string) :
  (String.length (base_sanitize_identifier sha s) <= 17)%nat /\
  (String.length (hs_sanitize_identifier sha s) <= 17)%nat.
Proof.
  pose proof (substring_0_length 12 (sha s)).
  unfold base_sanitize_identifier, hs_sanitize_identifier.
  set (h := substring 0 12 (sha s)) in *.
  split; repeat case_match; rewrite ?str_length_app; simpl; lia.
Qed.

(** X4: [_sanitize_act] depends on the act only through its keys, in
    their order, and its ['sub'] value (the email, name and any other
    value never reach the log); its [fields] are the keys in insertion
    order and its [field_count] their number. *)
Theorem sanitize_act_keys_and_sub (sha : string -> string) (a1 a2 : list (string * PyVal)) :
  map fst a1 = map fst a2 -> assoc_get "sub" a1 = assoc_get "sub" a2 ->
  sanitize_act sha a1 = sanitize_act sha a2 /\
  (forall r, sanitize_act sha a1 = inr r ->
             fields r = map fst a1 /\ field_count r = length (fields r)).
Proof.
  intros Hkeys Hsub. unfold sanitize_act. rewrite Hsub.
  destruct (base_sanitize_value sha _) as [e|h]; [split; [done|discriminate]|].
  split.
  - rewrite <- (length_map fst a1), <- (length_map fst a2), Hkeys. reflexivity.
  - intros r Hr. injection Hr as <-. simpl. split; [done|]. symmetry. apply length_map.
Qed.

Lemma sanitize_act_keys_and_sub_witness :
  map fst [("sub", PStr "alice"); ("email", PStr "alice@example.com")]
  = map fst [("sub", PStr "alice"); ("email", PStr "alice@corp.example")] /\
  assoc_get "sub" [("sub", PStr "alice"); ("email", PStr "alice@example.com")]
  = assoc_get "sub" [("sub", PStr "alice"); ("email", PStr "alice@corp.example")] /\
  (sanitize_act (fun s => s) [("sub", PStr "alice"); ("email", PStr "alice@example.com")]
   = sanitize_act (fun s => s) [("sub", PStr "alice"); ("email", PStr "alice@corp.example")] /\
   (forall r, sanitize_act (fun s => s)
                [("sub", PStr "alice"); ("email", PStr "alice@example.com")] = inr r ->
              fields r = map fst [("sub", PStr "alice"); ("email", PStr "alice@example.com")] /\
              field_count r = length (fields r))).
Proof.
  split; [reflexivity|]. split; [reflexivity|].
  apply (sanitize_act_keys_and_sub (fun s => s)); reflexivity.
Defined.

Lemma validate_act_ok (act : gmap string PyVal) :
  validate_act act = inr tt <-> exists sub, act !! "sub" = Some sub /\ truthy sub = true.
Proof.
  unfold validate_act. case_bool_decide as He.
  - subst act. split; [discriminate|]. intros (sub & Hl & _). done.
  - destruct (act !! "sub") as [sub|] eqn:E.
    + destruct (truthy sub) eqn:Ht; simpl.
      * split; [eauto|done].
      * split; [discriminate|]. intros (sub' & Hs & Ht'). congruence.
    + split; [discriminate|]. intros (sub' & Hs & _). discriminate.
Qed.

(** X5: [_validate_act] accepts an act exactly when it has a ['sub']
    whose value is truthy. *)
Theorem validate_act_iff (act : gmap string PyVal) :
  validate_act act = inr tt <-> exists sub, act !! "sub" = Some sub /\ truthy sub = true.
Proof. apply validate_act_ok. Qed.

(** X6: among the acts that pass the presence check shared by
    [prepare_out_of_session_act], [receive_and_verify_act_jwt] and the
    [request_token]s ([act] non-empty with a ['sub'] key),
    [_validate_act] rejects, with "Act claim 'sub' field cannot be
    empty", exactly those whose ['sub'] is falsy. *)
Theorem validate_act_stricter_than_presence (act : gmap string PyVal) :
  act_invalid (Some act) = false ->
  (validate_act act = inl (ValueError "Act claim 'sub' field cannot be empty") <->
   exists v, act !! "sub" = Some v /\ truthy v = false).
Proof.
  unfold act_invalid. intros H. apply orb_false_iff in H as [Hempty Hhas].
  unfold validate_act. rewrite Hempty.
  destruct (act !! "sub") as [v|] eqn:E; [|discriminate].
  destruct (truthy v) eqn:Ht; simpl.
  - split; [discriminate|]. intros (v' & Hv & Ht'). congruence.
  - split; [eauto|done].
Qed.

Lemma validate_act_stricter_than_presence_witness :
  act_invalid (Some (<["sub" := PStr ""]> ∅)) = false /\
  (validate_act (<["sub" := PStr ""]> ∅)
   = inl (ValueError "Act claim 'sub' field cannot be empty") <->
   exists v, (<["sub" := PStr ""]> ∅ : gmap string PyVal) !! "sub" = Some v /\ truthy v = false).
Proof.
  split; [reflexivity|].
  apply validate_act_stricter_than_presence. reflexivity.
Defined.

(** X7: the context [_log_token_request_error] logs has no
    ['client_secret'], ['token'] or ['act'] entry and keeps every other
    entry unchanged. *)
Theorem log_token_request_error_context (error : PyExc) (str_error : string)
    (context : gmap string PyVal) (k : string) :
  lr_context (log_token_request_error error str_error context) !! k =
  if bool_decide (k ∈ ["client_secret"; "token"; "act"]) then None else context !! k.
Proof.
  simpl. case_bool_decide as Hk.
  - apply map_lookup_filter_None_2. right. intros x _ Hn. exact (Hn Hk).
  - destruct (context !! k) as [v|] eqn:E.
    + apply map_lookup_filter_Some_2; [exact E|exact Hk].
    + apply map_lookup_filter_None_2. left. exact E.
Qed.

(** X8: the error message [_log_token_request_error] logs is the first
    at most 100 characters of [str(error)], the whole of it when it is
    no longer than that. *)
Theorem log_token_request_error_message (error : PyExc) (str_error : string)
    (context : gmap string PyVal) :
  let msg := error_message (log_token_request_error error str_error context) in
  (String.length msg <= 100)%nat /\ (exists rest, str_error = msg ++ rest) /\
  ((String.length str_error <= 100)%nat -> msg = str_error).
Proof.
  simpl. split; [apply substring_0_length|]. split; [apply substring_0_prefix|].
  apply substring_0_all.
Qed.

(** X9: [str(TokenRequestError(message, status_code))] shows the status
    exactly when it is truthy: with [status_code=0] it is the same text
    as with [None], and with any other code it differs from it. *)
Theorem token_request_error_str_status (message : string) (status_code : option Z) :
  token_request_error_str message status_code = token_request_error_str message None <->
  match status_code with Some s => s = 0 | None => True end.
Proof.
  destruct status_code as [s|]; simpl; [|tauto].
  destruct (Z.eqb_spec s 0) as [->|Hs]; simpl; [tauto|].
  split; [|intros; contradiction]. intros H. discriminate H.
Qed.

(** X10: [TokenResponse.__repr__] does not depend on the access token nor
    on the content of the act assertion (only on whether there is a
    truthy one): two responses that agree on [token_type], [expires_in],
    [scope] and that truthiness have the same representation. *)
Theorem token_response_repr_masks (r1 r2 : TokenResponse) :
  token_type r1 = token_type r2 -> expires_in r1 = expires_in r2 ->
  scope r1 = scope r2 ->
  opt_str_truthy (act_assertion r1) = opt_str_truthy (act_assertion r2) ->
  token_response_repr r1 = token_response_repr r2.
Proof. intros H1 H2 H3 H4. unfold token_response_repr. by rewrite H1, H2, H3, H4. Qed.

Lemma token_response_repr_masks_witness :
  token_response_repr {| access_token := "eyJ.secret1"; token_type := "Bearer";
                         expires_in := 3600; scope := "read";
                         act_assertion := Some "eyJ.assert1" |}
  = token_response_repr {| access_token := "eyJ.other"; token_type := "Bearer";
                           expires_in := 3600; scope := "read";
                           act_assertion := Some "eyJ.assert2" |}.
Proof. apply token_response_repr_masks; reflexivity. Defined.

(** X11: [validate_adapter_config(config, required_fields)] returns
    exactly when every required field is a key of [config]. *)
Theorem validate_adapter_config_iff (config : gmap string PyVal) (req : list string) :
  validate_adapter_config config req = inr tt <->
  Forall (fun f => is_Some (config !! f)) req.
Proof.
  unfold validate_adapter_config.
  destruct (filter (fun f => config !! f = None) req) as [|f rest] eqn:Hf.
  - split; [|done]. intros _. apply Forall_forall. intros x Hx.
    destruct (config !! x) as [v|] eqn:E; [eauto|].
    assert (Hin : x ∈ filter (fun f => config !! f = None) req)
      by (apply list_elem_of_filter; done).
    rewrite Hf in Hin. set_solver.
  - split; [discriminate|]. intros HF. exfalso.
    assert (Hin : f ∈ filter (fun f => config !! f = None) req) by (rewrite Hf; left).
    apply list_elem_of_filter in Hin as [Hn Hin].
    rewrite Forall_forall in HF. destruct (HF f Hin) as [v Hv]. congruence.
Qed.

(** X12: on the adapter's three required fields,
    [validate_adapter_config] and [BaseAdapter.__init__] report the same
    list of missing fields: one raises "Missing required configuration
    fields: <list>" exactly when the other raises "Missing required
    configuration: <list>". *)
Theorem validate_adapter_config_same_missing (config : gmap string PyVal) (m : string) :
  validate_adapter_config config required_fields
  = inl (ValueError ("Missing required configuration fields: " ++ m)) <->
  base_adapter_init config = inl (ValueError ("Missing required configuration: " ++ m)).
Proof.
  unfold validate_adapter_config, base_adapter_init.
  destruct (filter (fun f => config !! f = None) required_fields) as [|f rest].
  - split; [discriminate|].
    destruct (dict_get config "token_url") as [| | |url]; try discriminate.
    destruct (is_https url); simpl; [|discriminate].
    destruct (sanitize_identifier _) as [e|] eqn:Hs; [|discriminate].
    apply sanitize_identifier_inl in Hs. subst e. discriminate.
  - rewrite !value_error_prefix_inj. reflexivity.
Qed.

(* ================================================================== *)
(** ** Constructors, the verifier's state, and the request pipeline *)

Lemma handle_jwt_error_not_replay (e : JwtError) : handle_jwt_error e <> ReplayDetected.
Proof. by destruct e. Qed.

Lemma receive_success_act_valid (self self' : OutOfSessionTokenRequest) (tok : Token)
    (aud : string) (now : Z) (act : gmap string PyVal) :
  receive_and_verify_act_jwt self tok aud now = (inr act, self') ->
  act_invalid (Some act) = false.
Proof.
  unfold receive_and_verify_act_jwt.
  destruct (jwt_decode _ _ _ _ _) as [e|pl]; [intros H; discriminate H|].
  intros H. repeat case_match; simplify_eq; congruence.
Qed.

Lemma prepare_verify_core (key : N) (act : gmap string PyVal)
    (agent_endpoint : string) (ttl_seconds now t : Z) (jti : string)
    (used : gset string) :
  act_invalid (Some act) = false -> is_https agent_endpoint = true ->
  jti <> "" -> jti ∉ used -> now <= t < now + ttl_seconds ->
  exists tok,
    prepare_out_of_session_act {| _private_key := Some key |} act agent_endpoint
      ttl_seconds now jti = inr tok /\
    receive_and_verify_act_jwt {| _app_public_key := key; _used_jtis := used |}
      tok agent_endpoint t
    = (inr act, {| _app_public_key := key; _used_jtis := {[jti]} ∪ used |}).
Proof.
  intros Hact Hhttps Hjti Hfresh Ht.
  assert (Hep : String.eqb agent_endpoint "" = false).
  { apply String.eqb_neq. intros ->. discriminate. }
  unfold act_invalid in Hact. apply orb_false_iff in Hact as [Hempty Hhas].
  unfold prepare_out_of_session_act. simpl.
  rewrite Hempty, Hhas, Hep, Hhttps. simpl.
  eexists; split; [reflexivity|].
  unfold receive_and_verify_act_jwt, jwt_decode, jwt_encode. simpl.
  rewrite bool_decide_true by done.
  destruct (Z.ltb_spec t now); [lia|].
  destruct (Z.leb_spec (now + ttl_seconds) t); [lia|].
  rewrite Hep, String.eqb_refl. simpl.
  apply String.eqb_neq in Hjti. rewrite Hjti.
  rewrite bool_decide_false by done. simpl.
  rewrite Hempty, Hhas. reflexivity.
Qed.

Lemma extract_act_shape (session act : gmap string PyVal) :
  extract_act_from_session session = inr act ->
  truthy (session_email session) = true /\
  act !! "email" = Some (session_email session) /\
  (exists sub, act !! "sub" = Some sub /\ truthy sub = true).
Proof.
  unfold extract_act_from_session. cbv zeta.
  destruct (bool_decide (session = ∅)); [discriminate|].
  destruct (truthy (session_email session)) eqn:He; simpl; [|discriminate].
  destruct (sanitize_identifier _); [discriminate|].
  intros H. injection H as <-. split; [done|].
  set (sub := py_or (py_or (py_or (dict_get session "sub") (dict_get session "user_id"))
                            (dict_get session "oid")) (session_email session)).
  assert (Hs : truthy sub = true) by (unfold sub; rewrite truthy_py_or, He; apply orb_true_r).
  case_match.
  - rewrite lookup_insert_ne by done. rewrite lookup_insert_eq.
    split; [done|]. exists sub. rewrite lookup_insert_ne, lookup_insert_ne by done.
    rewrite lookup_insert_eq. done.
  - rewrite lookup_insert_eq. split; [done|]. exists sub.
    rewrite lookup_insert_ne by done. rewrite lookup_insert_eq. done.
Qed.

(** X13: a [HybridSender] built without a (truthy) [private_key_pem]
    refuses every [prepare_out_of_session_act] call with "HybridSender
    not configured for out-of-session", and one built with a key that
    loads never does. *)
Theorem hybrid_sender_init_signing (load_private_key : string -> string + N)
    (private_key_pem : option string) (self : HybridSender) :
  HybridSender_init load_private_key private_key_pem = inr self ->
  ((forall act agent_endpoint ttl_seconds now jti,
      prepare_out_of_session_act self act agent_endpoint ttl_seconds now jti
      = inl SigningKeyMissing) <->
   opt_str_truthy private_key_pem = false).
Proof.
  unfold HybridSender_init. destruct (opt_str_truthy private_key_pem).
  - destruct (load_private_key _) as [cls|key]; [discriminate|].
    intros H. injection H as <-. split; [|discriminate].
    intros Hall. specialize (Hall ∅ "" 0 0 ""). discriminate Hall.
  - intros H. injection H as <-. split; [done|]. intros _ *. reflexivity.
Qed.

Lemma hybrid_sender_init_signing_witness :
  HybridSender_init (fun _ => inr 7%N) (Some "app_private_key.pem")
  = inr {| _private_key := Some 7%N |} /\
  ((forall act agent_endpoint ttl_seconds now jti,
      prepare_out_of_session_act {| _private_key := Some 7%N |} act agent_endpoint
        ttl_seconds now jti = inl SigningKeyMissing) <->
   opt_str_truthy (Some "app_private_key.pem") = false).
Proof.
  split; [reflexivity|].
  apply (hybrid_sender_init_signing (fun _ => inr 7%N) (Some "app_private_key.pem")).
  reflexivity.
Defined.

(** X14: every act [extract_act_from_session] returns passes
    [_validate_act] and the act check of [receive_and_verify_act_jwt]
    and [prepare_out_of_session_act] (non-empty, with a ['sub']). *)
Theorem extract_act_valid (session act : gmap string PyVal) :
  extract_act_from_session session = inr act ->
  validate_act act = inr tt /\ act_invalid (Some act) = false.
Proof.
  intros H. destruct (extract_act_shape session act H) as (_ & _ & sub & Hsub & Ht).
  split.
  - apply validate_act_ok. eauto.
  - exact (verdict_act_valid act sub Hsub).
Qed.

Lemma extract_act_valid_witness :
  extract_act_from_session sample_session = inr sample_session_act /\
  (validate_act sample_session_act = inr tt /\ act_invalid (Some sample_session_act) = false).
Proof.
  split; [reflexivity|]. apply (extract_act_valid sample_session). reflexivity.
Defined.

(** X15: the whole out-of-session hand-off: the act extracted from a
    session, signed by [prepare_out_of_session_act] for an HTTPS agent
    endpoint with a fresh jti, is returned unchanged by
    [receive_and_verify_act_jwt] (same endpoint as audience, matching
    key, any time before expiry), which records the jti. *)
Theorem session_to_verified_act (session act : gmap string PyVal) (key : N)
    (agent_endpoint : string) (ttl_seconds now t : Z) (jti : string)
    (used : gset string) :
  extract_act_from_session session = inr act -> is_https agent_endpoint = true ->
  jti <> "" -> jti ∉ used -> now <= t < now + ttl_seconds ->
  exists tok,
    prepare_out_of_session_act {| _private_key := Some key |} act agent_endpoint
      ttl_seconds now jti = inr tok /\
    receive_and_verify_act_jwt {| _app_public_key := key; _used_jtis := used |}
      tok agent_endpoint t
    = (inr act, {| _app_public_key := key; _used_jtis := {[jti]} ∪ used |}).
Proof.
  intros Hx. destruct (extract_act_shape session act Hx) as (_ & _ & sub & Hsub & _).
  apply prepare_verify_core. exact (verdict_act_valid act sub Hsub).
Qed.

Lemma session_to_verified_act_witness :
  extract_act_from_session sample_session = inr sample_session_act /\
  is_https agent_url = true /\ "n1" <> "" /\ ("n1" ∉ (∅ : gset string)) /\
  1000 <= 1030 < 1000 + 60 /\
  exists tok,
    prepare_out_of_session_act {| _private_key := Some 7%N |} sample_session_act agent_url
      60 1000 "n1" = inr tok /\
    receive_and_verify_act_jwt {| _app_public_key := 7%N; _used_jtis := ∅ |}
      tok agent_url 1030
    = (inr sample_session_act, {| _app_public_key := 7%N; _used_jtis := {["n1"]} ∪ ∅ |}).
Proof.
  split; [reflexivity|]. split; [reflexivity|]. split; [discriminate|].
  split; [set_solver|]. split; [lia|].
  apply (session_to_verified_act sample_session sample_session_act 7%N agent_url 60 1000 1030
           "n1" ∅); [reflexivity|reflexivity|discriminate|set_solver|lia].
Defined.

(** X16: with the same adapter and the same attribute check,
    [OutOfSessionTokenRequest.request_token] behaves as
    [InSessionTokenRequest.request_token] except for the text of the
    input-validation error ("Invalid inputs"); in particular the only
    [ValueError] either raises is that one. *)
Theorem out_of_session_request_token_as_in_session {R : Type}
    (f : string -> gmap string PyVal -> list string -> PyExc + R) (p : R -> bool)
    (agent_id : string) (act : gmap string PyVal) (scope : list string) :
  out_of_session_request_token f p agent_id act scope =
  match in_session_request_token f p agent_id act scope with
  | inl (ValueError _) => inl (ValueError "Invalid inputs")
  | r => r
  end.
Proof.
  unfold out_of_session_request_token, in_session_request_token.
  destruct (_ || _); [reflexivity|].
  destruct (f agent_id act scope) as [e|r].
  - destruct e; reflexivity.
  - destruct (p r); reflexivity.
Qed.

(** X17: an act that [receive_and_verify_act_jwt] accepted always passes
    the input validation of [OutOfSessionTokenRequest.request_token]
    when the agent id and the scope list are non-empty. *)
Theorem verified_act_passes_request_validation {R : Type}
    (self self' : OutOfSessionTokenRequest) (tok : Token) (aud : string) (now : Z)
    (act : gmap string PyVal)
    (f : string -> gmap string PyVal -> list string -> PyExc + R) (p : R -> bool)
    (agent_id : string) (scope : list string) :
  receive_and_verify_act_jwt self tok aud now = (inr act, self') ->
  agent_id <> "" -> scope <> [] ->
  out_of_session_request_token f p agent_id act scope <> inl (ValueError "Invalid inputs").
Proof.
  intros Hr Ha Hs. pose proof (receive_success_act_valid _ _ _ _ _ _ Hr) as Hv.
  unfold act_invalid in Hv. apply orb_false_iff in Hv as [Hempty Hhas].
  unfold out_of_session_request_token.
  apply String.eqb_neq in Ha. rewrite Ha, Hempty, Hhas.
  rewrite bool_decide_false by done. simpl.
  destruct (f agent_id act scope) as [e|r].
  - destruct e; discriminate.
  - destruct (p r); discriminate.
Qed.

Lemma verified_act_passes_request_validation_witness :
  receive_and_verify_act_jwt app_verifier sample_token agent_url 1030
  = (inr alice, {| _app_public_key := 7%N; _used_jtis := {["n1"]} ∪ ∅ |}) /\
  "agent-1" <> "" /\ ["read"] <> [] /\
  out_of_session_request_token (fun _ _ _ => inr tt) (fun _ => true) "agent-1" alice ["read"]
  <> inl (ValueError "Invalid inputs").
Proof.
  split; [vm_compute; reflexivity|]. split; [discriminate|]. split; [discriminate|].
  apply (verified_act_passes_request_validation app_verifier
           {| _app_public_key := 7%N; _used_jtis := {["n1"]} ∪ ∅ |} sample_token agent_url 1030
           alice (fun _ _ _ => inr tt) (fun _ => true) "agent-1" ["read"]);
    [vm_compute; reflexivity|discriminate|discriminate].
Defined.

(** X18: a handler fresh from [OutOfSessionTokenRequest.__init__] has
    seen no jti, so its first call never reports a replay. *)
Theorem fresh_handler_no_replay (load_app_public_key : string -> string + N)
    (app_public_key_path : string) (self : OutOfSessionTokenRequest) :
  OutOfSessionTokenRequest_init load_app_public_key app_public_key_path = inr self ->
  _used_jtis self = ∅ /\
  forall tok aud now, fst (receive_and_verify_act_jwt self tok aud now) <> inl ReplayDetected.
Proof.
  unfold OutOfSessionTokenRequest_init.
  destruct (load_app_public_key app_public_key_path) as [cls|key]; [discriminate|].
  intros H. injection H as <-. split; [reflexivity|]. intros tok aud now.
  unfold receive_and_verify_act_jwt. simpl.
  destruct (jwt_decode _ _ _ _ _) as [e|pl]; simpl.
  - intros H. injection H as H. exact (handle_jwt_error_not_replay e H).
  - repeat case_match; simplify_eq; simpl; try discriminate.
    all: match goal with H : bool_decide (_ ∈ ∅) = true |- _ =>
           apply bool_decide_eq_true in H; set_solver end.
Qed.

Lemma fresh_handler_no_replay_witness :
  OutOfSessionTokenRequest_init (fun _ => inr 7%N) "app_public_key.pem" = inr app_verifier /\
  (_used_jtis app_verifier = ∅ /\
   forall tok aud now, fst (receive_and_verify_act_jwt app_verifier tok aud now)
                       <> inl ReplayDetected).
Proof.
  split; [reflexivity|]. apply (fresh_handler_no_replay (fun _ => inr 7%N) "app_public_key.pem").
  reflexivity.
Defined.

(** X19: a call of [receive_and_verify_act_jwt] never changes the public
    key, and either leaves [_used_jtis] as it was or adds exactly one
    jti: the token's own, non-empty, and not seen before. *)
Theorem receive_state_change (self : OutOfSessionTokenRequest) (tok : Token)
    (aud : string) (now : Z) :
  let self' := snd (receive_and_verify_act_jwt self tok aud now) in
  _app_public_key self' = _app_public_key self /\
  (_used_jtis self' = _used_jtis self \/
   exists j, tok_jti tok = Some j /\ j <> "" /\ (j ∉ _used_jtis self) /\
             _used_jtis self' = {[j]} ∪ _used_jtis self).
Proof.
  simpl. split; [apply receive_key|].
  unfold receive_and_verify_act_jwt.
  destruct (jwt_decode _ _ _ _ _) as [e|pl] eqn:Hd; [left; reflexivity|].
  destruct (jwt_decode_shape _ _ _ _ _ _ Hd) as (alg & sig & ->). simpl.
  destruct (pl_jti pl) as [j|] eqn:Hj; [|destruct (act_invalid _) eqn:?; [left; done|];
                                          case_match; left; done].
  destruct (String.eqb_spec j "") as [->|Hne].
  { destruct (act_invalid _); [left; done|]. case_match; left; done. }
  case_bool_decide as Hin; [left; done|].
  right. exists j. split; [done|]. split; [done|]. split; [done|].
  destruct (act_invalid _); [done|]. case_match; done.
Qed.

(** X20: a rejection other than "Act JWT must contain act.sub" leaves the
    handler as it was: an assertion refused for its signature, expiry,
    audience, time claims or replay does not consume its jti. *)
Theorem receive_rejection_keeps_state (self self' : OutOfSessionTokenRequest)
    (tok : Token) (aud : string) (now : Z) (e : VerifyError) :
  receive_and_verify_act_jwt self tok aud now = (inl e, self') ->
  e <> MalformedClaim -> self' = self.
Proof.
  unfold receive_and_verify_act_jwt.
  destruct (jwt_decode _ _ _ _ _) as [je|pl].
  - intros H _. congruence.
  - intros H Hne. repeat case_match; simplify_eq; done.
Qed.

Lemma receive_rejection_keeps_state_witness :
  receive_and_verify_act_jwt app_verifier sample_token agent_url 2000
  = (inl Expired, app_verifier) /\ Expired <> MalformedClaim /\ app_verifier = app_verifier.
Proof.
  split; [vm_compute; reflexivity|]. split; [discriminate|].
  apply (receive_rejection_keeps_state app_verifier app_verifier sample_token agent_url 2000
           Expired); [vm_compute; reflexivity|discriminate].
Defined.

(* ================================================================== *)
(** ** API calls and configuration loading *)

Lemma lower_char_idem (c : ascii) : lower_char (lower_char c) = lower_char c.
Proof. destruct c as [[] [] [] [] [] [] [] []]; reflexivity. Qed.

Lemma py_isspace_lower_char (c : ascii) : py_isspace (lower_char c) = py_isspace c.
Proof. destruct c as [[] [] [] [] [] [] [] []]; reflexivity. Qed.

Lemma lower_idem (s : string) : lower (lower s) = lower s.
Proof. induction s as [|c s IH]; simpl; [done|]. by rewrite lower_char_idem, IH. Qed.

Lemma lower_eqb_empty (s : string) : String.eqb (lower s) "" = String.eqb s "".
Proof. by destruct s. Qed.

Lemma lower_lstrip (s : string) : lower (lstrip s) = lstrip (lower s).
Proof.
  induction s as [|c s IH]; simpl; [done|].
  rewrite py_isspace_lower_char. by destruct (py_isspace c).
Qed.

Lemma lower_rstrip (s : string) : lower (rstrip s) = rstrip (lower s).
Proof.
  induction s as [|c s IH]; simpl; [done|].
  rewrite py_isspace_lower_char, <- IH, lower_eqb_empty.
  by destruct (py_isspace c && String.eqb (rstrip s) "").
Qed.

Lemma lstrip_idem (s : string) : lstrip (lstrip s) = lstrip s.
Proof.
  induction s as [|c s IH]; simpl; [done|].
  destruct (py_isspace c) eqn:Hc; [done|]. simpl. by rewrite Hc.
Qed.

Lemma rstrip_idem (s : string) : rstrip (rstrip s) = rstrip s.
Proof.
  induction s as [|c s IH]; simpl; [done|].
  destruct (py_isspace c && String.eqb (rstrip s) "") eqn:Hc; [done|].
  simpl. rewrite IH, Hc. reflexivity.
Qed.

Lemma lstrip_head (s : string) :
  lstrip s = "" \/ exists c r, lstrip s = String c r /\ py_isspace c = false.
Proof.
  induction s as [|c s IH]; simpl; [by left|].
  destruct (py_isspace c) eqn:Hc; [done|]. right. eauto.
Qed.

Lemma rstrip_cons_nonspace (c : ascii) (r : string) :
  py_isspace c = false -> rstrip (String c r) = String c (rstrip r).
Proof. intros Hc. simpl. by rewrite Hc. Qed.

Lemma lstrip_cons_nonspace (c : ascii) (r : string) :
  py_isspace c = false -> lstrip (String c r) = String c r.
Proof. intros Hc. simpl. by rewrite Hc. Qed.

Lemma strip_idem (s : string) : strip (strip s) = strip s.
Proof.
  unfold strip. destruct (lstrip_head s) as [->|(c & r & -> & Hc)]; [done|].
  rewrite !rstrip_cons_nonspace, lstrip_cons_nonspace, rstrip_cons_nonspace, rstrip_idem
    by done.
  reflexivity.
Qed.

(** [v.lower().strip()] normalised twice is normalised once. *)
Lemma norm_idem (v : string) : strip (lower (strip (lower v))) = strip (lower v).
Proof.
  unfold strip at 2. rewrite lower_rstrip, lower_lstrip, lower_idem. apply strip_idem.
Qed.

Lemma builders_shape (fs : string -> FileInfo) (env : gmap string string)
    (client_id client_secret : string) (b : PyExc + gmap string PyVal) :
  b = get_keycloak_config env client_id client_secret \/
  b = get_auth0_config env client_id client_secret \/
  b = get_okta_config env client_id client_secret \/
  b = get_entraid_config fs env client_id client_secret ->
  match b with
  | inl e => exists m, e = ConfigurationError m
  | inr config => builder_ok config client_id client_secret
  end.
Proof.
  unfold builder_ok.
  intros [ -> | [ -> | [ -> | -> ]]];
    unfold get_keycloak_config, get_auth0_config, get_okta_config, get_entraid_config,
      validate_file_exists;
    repeat case_match; simplify_eq; eauto;
    (split; [lookup_chain; done|]); (split; [lookup_chain; done|]); eexists; lookup_chain; done.
Qed.

Lemma validate_https_url_ok (url field_name : string) :
  validate_https_url url field_name = inr tt <-> is_https url = true.
Proof.
  unfold validate_https_url, is_https.
  destruct (String.eqb_spec url "") as [->|Hne]; [split; discriminate|].
  destruct (String.prefix "https://" url); simpl; [done|].
  split; [|discriminate]. by case_match.
Qed.

Lemma validate_https_url_err (url field_name : string) (e : PyExc) :
  validate_https_url url field_name = inl e -> exists m, e = ConfigurationError (field_name ++ m).
Proof. unfold validate_https_url. intros Hv. repeat case_match; simplify_eq; eauto. Qed.

Lemma validate_url_format_err (urlparse : string -> PyExc + (string * string))
    (url field_name : string) (e : PyExc) :
  validate_url_format urlparse url field_name = inl e ->
  exists cls, e = ConfigurationError (field_name ++ " has invalid URL format: " ++ cls) /\
  (cls = "ConfigurationError" \/ exists e0, urlparse url = inl e0 /\ cls = exc_class_name e0).
Proof.
  unfold validate_url_format. intros H.
  repeat case_match; simplify_eq; eexists; (split; [reflexivity|]); eauto.
Qed.

Lemma get_config_body_ok (urlparse : string -> PyExc + (string * string))
    (fs : string -> FileInfo) (env : gmap string string) (v : PyVal)
    (config : gmap string PyVal) :
  get_config_body urlparse fs env v = inr config ->
  exists cid sec url,
    config !! "client_id" = Some (PStr cid) /\ config !! "client_secret" = Some (PStr sec) /\
    config !! "token_url" = Some (PStr url) /\ is_https url = true /\
    (3 <= String.length cid)%nat.
Proof.
  unfold get_config_body. intros H.
  destruct (match v with | PNone => _ | _ => _ end) as [e|vendor]; [discriminate|].
  set (cid := strip (getenv env "AGENT_CLIENT_ID" "")) in *.
  set (sec := strip (getenv env "AGENT_CLIENT_SECRET" "")) in *.
  destruct (String.eqb vendor ""); [discriminate|].
  destruct (negb (existsb _ _)); [discriminate|].
  destruct (String.eqb cid ""); [discriminate|].
  destruct (String.eqb sec ""); [discriminate|].
  destruct (Nat.ltb_spec (String.length cid) 3); [discriminate|].
  set (b := if String.eqb vendor "keycloak" then _ else _) in H.
  assert (Hb : match b with
               | inl e => exists m, e = ConfigurationError m
               | inr config => builder_ok config cid sec
               end).
  { unfold b. destruct (String.eqb vendor "keycloak"); [apply (builders_shape fs env); auto|].
    destruct (String.eqb vendor "auth0"); [apply (builders_shape fs env); auto|].
    destruct (String.eqb vendor "okta"); [apply (builders_shape fs env); auto|].
    destruct (String.eqb vendor "entraid"); [apply (builders_shape fs env); auto|].
    eauto. }
  destruct b as [e|config']; [discriminate|].
  destruct Hb as (Hc & Hs & url & Hu).
  unfold dict_get in H. rewrite Hu in H. simpl in H.
  destruct (validate_https_url url "token_url") as [e|[]] eqn:Hh; [discriminate|].
  destruct (validate_url_format _ _ _) as [e|[]]; [discriminate|].
  injection H as <-. exists cid, sec, url. repeat split; try done; try lia.
  by apply validate_https_url_ok in Hh.
Qed.

Lemma get_config_body_err (urlparse : string -> PyExc + (string * string))
    (fs : string -> FileInfo) (env : gmap string string) (v : PyVal) (e : PyExc) :
  get_config_body urlparse fs env v = inl e -> exists m, e = ConfigurationError m.
Proof.
  unfold get_config_body. intros H.
  destruct (match v with | PNone => _ | _ => _ end) as [e'|vendor] eqn:Hv.
  { destruct v; simplify_eq; eauto. }
  set (cid := strip (getenv env "AGENT_CLIENT_ID" "")) in *.
  set (sec := strip (getenv env "AGENT_CLIENT_SECRET" "")) in *.
  destruct (String.eqb vendor ""); [simplify_eq; eauto|].
  destruct (negb (existsb _ _)) eqn:Hvalid; [simplify_eq; eauto|].
  destruct (String.eqb cid ""); [simplify_eq; eauto|].
  destruct (String.eqb sec ""); [simplify_eq; eauto|].
  destruct (Nat.ltb (String.length cid) 3); [simplify_eq; eauto|].
  set (b := if String.eqb vendor "keycloak" then _ else _) in H.
  assert (Hb : match b with
               | inl e => exists m, e = ConfigurationError m
               | inr config => builder_ok config cid sec
               end).
  { unfold b. destruct (String.eqb vendor "keycloak"); [apply (builders_shape fs env); auto|].
    destruct (String.eqb vendor "auth0"); [apply (builders_shape fs env); auto|].
    destruct (String.eqb vendor "okta"); [apply (builders_shape fs env); auto|].
    destruct (String.eqb vendor "entraid"); [apply (builders_shape fs env); auto|].
    eauto. }
  destruct b as [e'|config]; [simplify_eq; exact Hb|].
  destruct Hb as (Hc & Hs & url & Hu).
  unfold dict_get in H. rewrite Hu in H. simpl in H.
  destruct (validate_https_url url "token_url") as [e'|[]] eqn:Hh.
  { simplify_eq. apply validate_https_url_err in Hh as [m ->]. eauto. }
  destruct (validate_url_format _ _ _) as [e'|[]] eqn:Hf; [|discriminate].
  simplify_eq. apply validate_url_format_err in Hf as (cls & -> & _). eauto.
Qed.

(** X21: [call_api] (in-session and out-of-session) refuses a non-HTTPS
    URL with "API URL must use HTTPS" before any request is sent,
    whatever the session would answer. *)
Theorem call_api_rejects_non_https {Resp : Type}
    (session_request : HttpRequest -> PyExc + Resp) (timeout : Z)
    (token_response : TokenResponse) (api_url method : string)
    (json_data : option (gmap string PyVal)) :
  String.prefix "https://" api_url = false ->
  call_api session_request timeout token_response api_url method json_data
  = inl (ValueError "API URL must use HTTPS").
Proof. intros H. unfold call_api. by rewrite H. Qed.

Lemma call_api_rejects_non_https_witness :
  String.prefix "https://" "http://api.example.com/data" = false /\
  call_api (fun _ => inr tt) 30
    {| access_token := "tok"; token_type := "Bearer"; expires_in := 3600;
       scope := "read"; act_assertion := None |}
    "http://api.example.com/data" "GET" None
  = inl (ValueError "API URL must use HTTPS").
Proof.
  split; [reflexivity|]. apply (call_api_rejects_non_https (fun _ => inr tt)). reflexivity.
Defined.

(** X22: on an HTTPS URL, [call_api] sends exactly one request, to that
    URL with the given method, JSON body and timeout and with TLS
    verification on, and returns what the session returns; its headers
    are [Authorization: Bearer <access_token>], [X-Act-Assertion] exactly
    when the response carries a truthy act assertion, [Content-Type:
    application/json] exactly when the JSON body is truthy, and nothing
    else. *)
Theorem call_api_request {Resp : Type}
    (session_request : HttpRequest -> PyExc + Resp) (timeout : Z)
    (tr : TokenResponse) (api_url method : string)
    (json_data : option (gmap string PyVal)) :
  String.prefix "https://" api_url = true ->
  exists rq,
    call_api session_request timeout tr api_url method json_data = session_request rq /\
    req_url rq = api_url /\ req_method rq = method /\ req_json rq = json_data /\
    req_timeout rq = timeout /\ req_verify rq = true /\
    req_headers rq !! "Authorization" = Some ("Bearer " ++ access_token tr) /\
    req_headers rq !! "X-Act-Assertion" =
      (if opt_str_truthy (act_assertion tr) then act_assertion tr else None) /\
    req_headers rq !! "Content-Type" =
      (if json_truthy json_data then Some "application/json" else None) /\
    (forall k, k ∉ ["Authorization"; "X-Act-Assertion"; "Content-Type"] ->
               req_headers rq !! k = None).
Proof.
  intros H. unfold call_api. rewrite H. simpl.
  eexists; split; [reflexivity|]. simpl.
  do 5 (split; [reflexivity|]).
  unfold prepare_headers.
  destruct (opt_str_truthy (act_assertion tr)) eqn:Ha;
    destruct (json_truthy json_data);
    repeat split; lookup_chain; try done;
    try (destruct (act_assertion tr); [done|discriminate]);
    intros k Hk; rewrite !lookup_insert_ne by set_solver; apply lookup_empty.
Qed.

Lemma call_api_request_witness :
  String.prefix "https://" "https://api.example.com/data" = true /\
  exists rq,
    call_api (fun rq => inr rq) 30
      {| access_token := "tok"; token_type := "Bearer"; expires_in := 3600;
         scope := "read"; act_assertion := Some "eyJ.assert" |}
      "https://api.example.com/data" "POST" (Some (<["amount" := PInt 5]> ∅))
    = inr rq /\
    req_url rq = "https://api.example.com/data" /\ req_method rq = "POST" /\
    req_json rq = Some (<["amount" := PInt 5]> ∅) /\
    req_timeout rq = 30 /\ req_verify rq = true /\
    req_headers rq !! "Authorization" = Some ("Bearer " ++ "tok") /\
    req_headers rq !! "X-Act-Assertion" =
      (if opt_str_truthy (Some "eyJ.assert") then Some "eyJ.assert" else None) /\
    req_headers rq !! "Content-Type" =
      (if json_truthy (Some (<["amount" := PInt 5]> ∅)) then Some "application/json" else None) /\
    (forall k, k ∉ ["Authorization"; "X-Act-Assertion"; "Content-Type"] ->
               req_headers rq !! k = None).
Proof.
  split; [reflexivity|].
  apply (call_api_request (fun rq => inr rq) 30
           {| access_token := "tok"; token_type := "Bearer"; expires_in := 3600;
              scope := "read"; act_assertion := Some "eyJ.assert" |}
           "https://api.example.com/data" "POST" (Some (<["amount" := PInt 5]> ∅))).
  reflexivity.
Defined.

(** X23: [_validate_https_url] accepts exactly the URLs that start with
    ["https://"], and every error it raises is a [ConfigurationError]
    whose message starts with the field name. *)
Theorem validate_https_url_spec (url field_name : string) :
  (validate_https_url url field_name = inr tt <-> is_https url = true) /\
  (forall e, validate_https_url url field_name = inl e ->
             exists m, e = ConfigurationError (field_name ++ m)).
Proof. split; [apply validate_https_url_ok|apply validate_https_url_err]. Qed.

(** X24: [_validate_url_format] accepts a URL exactly when [urlparse]
    yields a non-empty scheme and a non-empty hostname; every error it
    raises is "<field> has invalid URL format: <class>", where the class
    is that of [urlparse]'s exception or, for a missing scheme or
    hostname, ["ConfigurationError"] (its own message is replaced by the
    [except Exception] handler). *)
Theorem validate_url_format_spec (urlparse : string -> PyExc + (string * string))
    (url field_name : string) :
  (validate_url_format urlparse url field_name = inr tt <->
   exists scheme netloc, urlparse url = inr (scheme, netloc) /\ scheme <> "" /\ netloc <> "") /\
  (forall e, validate_url_format urlparse url field_name = inl e ->
   exists cls, e = ConfigurationError (field_name ++ " has invalid URL format: " ++ cls) /\
   (cls = "ConfigurationError" \/ exists e0, urlparse url = inl e0 /\ cls = exc_class_name e0)).
Proof.
  split; [|apply validate_url_format_err].
  unfold validate_url_format.
  destruct (urlparse url) as [e0|[scheme netloc]].
  - split; [discriminate|]. intros (? & ? & ? & _). discriminate.
  - destruct (String.eqb_spec scheme "") as [->|Hs]; simpl.
    + split; [discriminate|]. intros (? & ? & H & Hs & _). injection H as <- <-. done.
    + destruct (String.eqb_spec netloc "") as [->|Hn]; simpl.
      * split; [discriminate|]. intros (? & ? & H & _ & Hn). injection H as <- <-. done.
      * split; [eauto|done].
Qed.

(** X25: a configuration [get_config] returns is accepted by
    [BaseAdapter.__init__], which keeps it as its [config]; the client
    id it stores is a string of at least 3 characters. *)
Theorem get_config_accepted_by_adapter (urlparse : string -> PyExc + (string * string))
    (fs : string -> FileInfo) (env : gmap string string) (v : PyVal)
    (config : gmap string PyVal) :
  get_config urlparse fs env v = inr config ->
  exists st, base_adapter_init config = inr st /\ ba_config st = config /\
  exists cid, ba_client_id st = PStr cid /\ (3 <= String.length cid)%nat.
Proof.
  unfold get_config. intros H.
  assert (Hb : get_config_body urlparse fs env v = inr config)
    by (repeat case_match; simplify_eq; done).
  destruct (get_config_body_ok _ _ _ _ _ Hb) as (cid & sec & url & Hc & Hs & Hu & Hh & Hl).
  unfold base_adapter_init, required_fields, dict_get.
  rewrite !filter_cons, filter_nil.
  rewrite decide_False by (rewrite Hu; discriminate).
  rewrite decide_False by (rewrite Hc; discriminate).
  rewrite decide_False by (rewrite Hs; discriminate).
  rewrite Hu, Hc. simpl. rewrite Hh. simpl. rewrite sanitize_identifier_str.
  eexists; split; [reflexivity|]. simpl. split; [done|]. eauto.
Qed.

Lemma get_config_accepted_by_adapter_witness :
  get_config (fun _ => inr ("https", "idp.example.com")) (fun _ => Build_FileInfo true true true)
    (<["AGENT_CLIENT_ID" := "agent-1"]> (<["AGENT_CLIENT_SECRET" := "s3cret"]>
     (<["KEYCLOAK_TOKEN_URL" := "https://idp.example.com/token"]> ∅))) PNone
  = inr (<["token_url" := PStr "https://idp.example.com/token"]>
         (<["client_id" := PStr "agent-1"]> (<["client_secret" := PStr "s3cret"]>
         (<["audience" := PNone]> ∅)))) /\
  exists st, base_adapter_init (<["token_url" := PStr "https://idp.example.com/token"]>
         (<["client_id" := PStr "agent-1"]> (<["client_secret" := PStr "s3cret"]>
         (<["audience" := PNone]> ∅)))) = inr st /\
  ba_config st = (<["token_url" := PStr "https://idp.example.com/token"]>
         (<["client_id" := PStr "agent-1"]> (<["client_secret" := PStr "s3cret"]>
         (<["audience" := PNone]> ∅)))) /\
  exists cid, ba_client_id st = PStr cid /\ (3 <= String.length cid)%nat.
Proof.
  split; [vm_compute; reflexivity|].
  apply (get_config_accepted_by_adapter (fun _ => inr ("https", "idp.example.com"))
           (fun _ => Build_FileInfo true true true)
           (<["AGENT_CLIENT_ID" := "agent-1"]> (<["AGENT_CLIENT_SECRET" := "s3cret"]>
            (<["KEYCLOAK_TOKEN_URL" := "https://idp.example.com/token"]> ∅))) PNone).
  vm_compute; reflexivity.
Defined.

(** X26: the try block of [get_config] raises nothing but
    [ConfigurationError], so its generic [except Exception] wrapper
    ("Unexpected error loading configuration") is never reached. *)
Theorem get_config_no_unexpected (urlparse : string -> PyExc + (string * string))
    (fs : string -> FileInfo) (env : gmap string string) (v : PyVal) :
  get_config urlparse fs env v = get_config_body urlparse fs env v.
Proof.
  unfold get_config.
  destruct (get_config_body urlparse fs env v) as [e|config] eqn:H; [|done].
  apply get_config_body_err in H as [m ->]. reflexivity.
Qed.

(** X27: [get_config] only sees the vendor name lower-cased and
    stripped: passing [" Okta "] is the same as passing ["okta"]. *)
Theorem get_config_vendor_normalised (urlparse : string -> PyExc + (string * string))
    (fs : string -> FileInfo) (env : gmap string string) (v : string) :
  get_config urlparse fs env (PStr v) = get_config urlparse fs env (PStr (strip (lower v))).
Proof. unfold get_config, get_config_body. cbv beta iota. by rewrite norm_idem. Qed.

(** X28: [get_config()] without a vendor is [get_config(get_vendor())]:
    both read [AGBAC_VENDOR] (default ["keycloak"]) the same way. *)
Theorem get_config_default_vendor (urlparse : string -> PyExc + (string * string))
    (fs : string -> FileInfo) (env : gmap string string) :
  get_config urlparse fs env PNone = get_config urlparse fs env (PStr (get_vendor env)).
Proof. unfold get_config, get_config_body, get_vendor. cbv beta iota. by rewrite norm_idem. Qed.

(** X29: an adapter's [request_token] returns a token body exactly when
    the provider answers with a status outside 400-599 and a JSON body,
    and then returns that body. *)
Theorem vendor_request_token_success (post : string -> TokenRequestBody -> HttpOutcome)
    (self : VendorAdapter) (sub : string) (act : gmap string PyVal) (scope : list string)
    (token_data : gmap string PyVal) :
  vendor_request_token post self sub act scope = inr token_data <->
  exists response, post (token_url self) (request_body self sub act scope) = Response response /\
                   resp_json response = Some token_data /\
                   ~ (400 <= resp_status response < 600).
Proof.
  unfold vendor_request_token.
  destruct (post _ _) as [|response];
    [split; [discriminate|intros (? & Hp & _); discriminate Hp]|].
  split.
  - intros Hr.
    destruct (Z.leb 400 (resp_status response) && Z.ltb (resp_status response) 600) eqn:Hs;
      [discriminate|].
    destruct (resp_json response) as [d|] eqn:Hj; [|discriminate]. injection Hr as <-.
    exists response. split; [done|]. split; [done|].
    apply andb_false_iff in Hs. intros [H1 H2].
    destruct Hs as [Hs|Hs]; [apply Z.leb_gt in Hs|apply Z.ltb_ge in Hs]; lia.
  - intros (r & Hp & Hj & Hn). injection Hp as <-. rewrite Hj.
    destruct (Z.leb_spec 400 (resp_status response));
      destruct (Z.ltb_spec (resp_status response) 600); simpl; try lia; reflexivity.
Qed.

(** X30: the act [extract_act_from_session] builds has the session's
    email as ['email'], no keys other than ['sub'], ['email'] and
    ['name'], and a ['name'] exactly when one of [name], [display_name],
    [displayName] holds a truthy value. *)
Theorem extract_act_keys (session act : gmap string PyVal) :
  extract_act_from_session session = inr act ->
  act !! "email" = Some (session_email session) /\
  (forall k, k ∉ ["sub"; "email"; "name"] -> act !! k = None) /\
  (is_Some (act !! "name") <->
   Exists (fun k => truthy (dict_get session k) = true) ["name"; "display_name"; "displayName"]).
Proof.
  intros H. destruct (extract_act_shape session act H) as (_ & He & _).
  split; [exact He|].
  unfold extract_act_from_session in H. cbv zeta in H.
  destruct (bool_decide (session = ∅)); [discriminate|].
  destruct (negb (truthy (session_email session))); [discriminate|].
  destruct (sanitize_identifier _); [discriminate|].
  injection H as <-.
  assert (Hname : Exists (fun k => truthy (dict_get session k) = true)
                    ["name"; "display_name"; "displayName"] <->
                  truthy (py_or (py_or (dict_get session "name") (dict_get session "display_name"))
                                (dict_get session "displayName")) = true)
    by (rewrite !Exists_cons, Exists_nil, !truthy_py_or, !orb_true_iff; tauto).
  rewrite Hname.
  case_match eqn:Hn.
  - split.
    + intros k Hk. rewrite !lookup_insert_ne by set_solver. apply lookup_empty.
    + rewrite lookup_insert_eq. split; [done|eauto].
  - split.
    + intros k Hk. rewrite !lookup_insert_ne by set_solver. apply lookup_empty.
    + rewrite !lookup_insert_ne by discriminate. rewrite lookup_empty.
      split; [intros [? ?]; discriminate|discriminate].
Qed.

Lemma extract_act_keys_witness :
  extract_act_from_session sample_session = inr sample_session_act /\
  (sample_session_act !! "email" = Some (session_email sample_session) /\
   (forall k, k ∉ ["sub"; "email"; "name"] -> sample_session_act !! k = None) /\
   (is_Some (sample_session_act !! "name") <->
    Exists (fun k => truthy (dict_get sample_session k) = true)
      ["name"; "display_name"; "displayName"])).
Proof. split; [reflexivity|]. apply (extract_act_keys sample_session). reflexivity. Defined.
